(** * Request-admission pipeline of the Lovable MCP server

    A shallow embedding of [src/server/server.py]: the per-key sliding
    window [RateLimiter], the API-key check [validate_request], the three
    request handlers and the routing table.

    Conventions of the embedding.
    - [time.time()] is an input: every operation that reads the clock takes
      the reading [now] as an argument.  Readings are exact rationals
      (seconds); the rounding of Python floats is not modelled.
    - [RateLimiter.requests] is a [defaultdict(list)]: a finite map from
      keys to windows in which a missing key reads as the empty list.
    - Python exceptions are values of [exn]; code that may raise returns a
      [result]. *)

From Stdlib Require Import Ascii String ZArith QArith Lqa List Bool.
From stdpp Require Import gmap strings list fin_maps pretty.
Import ListNotations.

Set Warnings "-register-all".

Local Open Scope string_scope.
Local Open Scope Z_scope.
Local Open Scope list_scope.

(** ** RateLimiter *)

Module RateLimiter.

(** [class RateLimiter]: the two attributes set by [__init__]. *)
Record t := mk {
  requests_per_minute : Z;
  requests : gmap string (list Q)
}.

(** [RateLimiter(requests_per_minute)]. *)
Definition init (rpm : Z) : t := mk rpm ∅.

(** [self.requests[api_key]] read on a [defaultdict(list)]. *)
Definition window (self : t) (api_key : string) : list Q :=
  default [] (requests self !! api_key).

(** [t > minute_ago] on timestamps. *)
Definition Qgtb (x y : Q) : bool := negb (Qle_bool x y).

(** [[t for t in window if t > minute_ago]]. *)
Definition prune (minute_ago : Q) (w : list Q) : list Q :=
  List.filter (fun t => Qgtb t minute_ago) w.

(** [RateLimiter.is_rate_limited], with the clock reading [now] made an
    argument.  Returns the boolean result and the object after the call. *)
Definition is_rate_limited (self : t) (api_key : string) (now : Q) : bool * t :=
  let minute_ago := (now - 60)%Q in
  (* Clean old requests *)
  let kept := prune minute_ago (window self api_key) in
  let self1 := mk (requests_per_minute self) (<[api_key := kept]> (requests self)) in
  (* Check if rate limited *)
  if (Z.of_nat (length kept) >=? requests_per_minute self)
  then (true, self1)
  else
    (* Add new request *)
    (false, mk (requests_per_minute self1)
               (<[api_key := window self1 api_key ++ [now]]> (requests self1))).

(** A sequence of calls for one key, one clock reading per call. *)
Fixpoint calls (self : t) (api_key : string) (nows : list Q) : list bool * t :=
  match nows with
  | [] => ([], self)
  | now :: rest =>
      let '(r, self1) := is_rate_limited self api_key now in
      let '(rs, self2) := calls self1 api_key rest in
      (r :: rs, self2)
  end.

(** A sequence of calls for arbitrary keys. *)
Fixpoint trace (self : t) (cs : list (string * Q)) : list bool * t :=
  match cs with
  | [] => ([], self)
  | (k, now) :: rest =>
      let '(r, self1) := is_rate_limited self k now in
      let '(rs, self2) := trace self1 rest in
      (r :: rs, self2)
  end.

(** All clock readings lie in the half-open span [[start, start + 60)]. *)
Definition in_span (start : Q) (nows : list Q) : Prop :=
  Forall (fun now => (start <= now /\ now < start + 60)%Q) nows.

End RateLimiter.

(** ** Python values and exceptions *)

(** [class ComponentType(Enum)]. *)
Inductive ComponentType := BUTTON | FORM | CARD | DIALOG | TABLE.

(** The [value] of a member. *)
Definition ComponentType_value (c : ComponentType) : string :=
  match c with
  | BUTTON => "button" | FORM => "form" | CARD => "card"
  | DIALOG => "dialog" | TABLE => "table"
  end.

(** The [name] of a member. *)
Definition ComponentType_name (c : ComponentType) : string :=
  match c with
  | BUTTON => "BUTTON" | FORM => "FORM" | CARD => "CARD"
  | DIALOG => "DIALOG" | TABLE => "TABLE"
  end.

Definition ComponentType_members : list ComponentType :=
  [BUTTON; FORM; CARD; DIALOG; TABLE].

(** [ComponentType(s)]: lookup of a member by value. *)
Definition ComponentType_of_value (s : string) : option ComponentType :=
  List.find (fun c => String.eqb (ComponentType_value c) s) ComponentType_members.

(** [str(member)] of a plain [Enum], as interpolated by the f-string of
    [generate_component]. *)
Definition ComponentType_str (c : ComponentType) : string :=
  "ComponentType." +:+ ComponentType_name c.

(** What [json.loads] produces: [None], [bool], [int], [float], [str],
    [list] and [dict] with string keys.  A dict keeps insertion order; a
    lookup takes the first binding of the key. *)
Inductive json :=
| JNull
| JBool (b : bool)
| JInt (z : Z)
| JFloat (q : Q)
| JStr (s : string)
| JList (l : list json)
| JObject (d : list (string * json)).

(** Python values built by the handlers: JSON-decoded data, members of
    [ComponentType], and dicts of those. *)
Inductive pyval :=
| PyJson (j : json)
| PyEnum (c : ComponentType)
| PyDict (d : list (string * pyval)).

(** [d.get(key)] / [key in d] on a dict. *)
Fixpoint dict_get {V : Type} (d : list (string * V)) (key : string) : option V :=
  match d with
  | [] => None
  | (k, v) :: rest => if String.eqb k key then Some v else dict_get rest key
  end.

Definition dict_has {V : Type} (d : list (string * V)) (key : string) : bool :=
  match dict_get d key with Some _ => true | None => false end.

(** [json.dumps]: every JSON-decoded value is serialisable, a member of the
    plain [Enum] [ComponentType] is not ([TypeError]).  The serialised
    document is represented by the JSON value it denotes. *)
Fixpoint to_json (v : pyval) : option json :=
  match v with
  | PyJson j => Some j
  | PyEnum _ => None
  | PyDict d =>
      let fix items (d : list (string * pyval)) : option (list (string * json)) :=
        match d with
        | [] => Some []
        | (k, x) :: rest =>
            match to_json x, items rest with
            | Some j, Some js => Some ((k, j) :: js)
            | _, _ => None
            end
        end in
      match items d with
      | Some js => Some (JObject js)
      | None => None
      end
  end.

(** Subclasses of [web.HTTPException] used by the server and its router. *)
Inductive HTTPError :=
| HTTPBadRequest
| HTTPUnauthorized
| HTTPNotFound
| HTTPMethodNotAllowed
| HTTPTooManyRequests
| HTTPInternalServerError.

Definition status_code (c : HTTPError) : Z :=
  match c with
  | HTTPBadRequest => 400
  | HTTPUnauthorized => 401
  | HTTPNotFound => 404
  | HTTPMethodNotAllowed => 405
  | HTTPTooManyRequests => 429
  | HTTPInternalServerError => 500
  end.

Definition status_text (c : HTTPError) : string :=
  match c with
  | HTTPBadRequest => "400"
  | HTTPUnauthorized => "401"
  | HTTPNotFound => "404"
  | HTTPMethodNotAllowed => "405"
  | HTTPTooManyRequests => "429"
  | HTTPInternalServerError => "500"
  end.

(** The default reason phrase of a status. *)
Definition default_reason (c : HTTPError) : string :=
  match c with
  | HTTPBadRequest => "Bad Request"
  | HTTPUnauthorized => "Unauthorized"
  | HTTPNotFound => "Not Found"
  | HTTPMethodNotAllowed => "Method Not Allowed"
  | HTTPTooManyRequests => "Too Many Requests"
  | HTTPInternalServerError => "Internal Server Error"
  end.

(** Exceptions, by the classes the handlers distinguish:
    [web.HTTPException], [ValueError] (with its subclasses
    [json.JSONDecodeError] and [pydantic.ValidationError]), and every other
    subclass of [Exception]; [cls] is the class name, [msg] is [str(e)]. *)
Inductive exn :=
| HTTPException (c : HTTPError) (reason : string)
| ValueError (msg : string)
| TypeError (msg : string)
| OtherException (cls : string) (msg : string).

Definition exn_str (e : exn) : string :=
  match e with
  | HTTPException _ reason => reason
  | ValueError msg => msg
  | TypeError msg => msg
  | OtherException _ msg => msg
  end.

Definition is_HTTPException (e : exn) : bool :=
  match e with HTTPException _ _ => true | _ => false end.

Inductive result (A : Type) :=
| Ok (a : A)
| Raise (e : exn).
Arguments Ok {A} a.
Arguments Raise {A} e.

(** ** pydantic models *)

(** Field validation on JSON-decoded input, as pydantic performs it for
    the annotations [ComponentType], [dict], [dict | None], [str] and
    [list[str]]: a value of the annotated type is accepted, an enum field
    accepts the value of a member.  This is the validation of pydantic 2;
    pydantic 1 also converts some values of another type (a number for
    [str], a sequence of pairs for [dict]).  Both versions agree on
    missing fields, on the enum and on values of the annotated type, and
    the statements on refused payloads below use only those. *)
Definition validate_enum (v : json) : option ComponentType :=
  match v with
  | JStr s => ComponentType_of_value s
  | _ => None
  end.

Definition validate_dict (v : json) : option (list (string * json)) :=
  match v with
  | JObject d => Some d
  | _ => None
  end.

Definition validate_optional_dict (v : json) : option (option (list (string * json))) :=
  match v with
  | JNull => Some None
  | JObject d => Some (Some d)
  | _ => None
  end.

Definition validate_str (v : json) : option string :=
  match v with
  | JStr s => Some s
  | _ => None
  end.

Fixpoint validate_list_str_items (l : list json) : option (list string) :=
  match l with
  | [] => Some []
  | x :: rest =>
      match validate_str x, validate_list_str_items rest with
      | Some s, Some ss => Some (s :: ss)
      | _, _ => None
      end
  end.

Definition validate_list_str (v : json) : option (list string) :=
  match v with
  | JList l => validate_list_str_items l
  | _ => None
  end.

(** One entry of a [ValidationError]: the field and what is wrong with it. *)
Definition field_error := (string * string)%type.

(** A required field: missing or of the wrong type is an error. *)
Definition required {A : Type} (kwargs : list (string * json)) (name : string)
    (validate : json -> option A) (expected : string) : A + field_error :=
  match dict_get kwargs name with
  | None => inr (name, "field required")
  | Some v =>
      match validate v with
      | Some a => inl a
      | None => inr (name, expected)
      end
  end.

(** A field with a default: missing gives the default. *)
Definition optional {A : Type} (kwargs : list (string * json)) (name : string)
    (validate : json -> option A) (expected : string) (dflt : A) : A + field_error :=
  match dict_get kwargs name with
  | None => inl dflt
  | Some v =>
      match validate v with
      | Some a => inl a
      | None => inr (name, expected)
      end
  end.

Definition errors_of {A : Type} (r : A + field_error) : list field_error :=
  match r with
  | inl _ => []
  | inr e => [e]
  end.

(** The line break. *)
Definition newline : string := String "010"%char "".

(** ['\n' in s]. *)
Fixpoint has_newline (s : string) : bool :=
  match s with
  | EmptyString => false
  | String c rest => Ascii.eqb c "010"%char || has_newline rest
  end.

(** [str(e)] of a [ValidationError]: a first line with the number of
    errors and the model, then for every offending field a line with its
    name and an indented line with the complaint.  The text spans
    several lines as soon as there is an error; the wording of the
    complaints differs between pydantic versions and is not kept. *)
Definition validation_message (model : string) (errs : list field_error) : string :=
  pretty (length errs) +:+
  (if Nat.eqb (length errs) 1 then " validation error for " else " validation errors for ") +:+
  model +:+
  List.fold_right (fun e acc => newline +:+ fst e +:+ newline +:+ "  " +:+ snd e +:+ acc)
                  "" errs.

Module UIComponent.

(** [class UIComponent(BaseModel)]. *)
Record t := mk {
  type : ComponentType;
  props : list (string * json);
  styles : option (list (string * json));
  accessibility : option (list (string * json))
}.

(** The constructor call with [data] unpacked as keyword arguments:
    [data] must be a mapping ([TypeError] otherwise); the fields are validated in declaration order and all
    errors are collected into one [ValidationError] (a [ValueError]);
    unknown keys are ignored. *)
Definition new (data : json) : result t :=
  match data with
  | JObject kwargs =>
      let f_type := required kwargs "type" validate_enum "value is not a valid enumeration member" in
      let f_props := required kwargs "props" validate_dict "value is not a valid dict" in
      let f_styles := optional kwargs "styles" validate_optional_dict "value is not a valid dict" None in
      let f_access := optional kwargs "accessibility" validate_optional_dict "value is not a valid dict" None in
      match f_type, f_props, f_styles, f_access with
      | inl ty, inl p, inl s, inl a => Ok (mk ty p s a)
      | _, _, _, _ =>
          Raise (ValueError (validation_message "UIComponent"
            (errors_of f_type ++ errors_of f_props ++ errors_of f_styles ++ errors_of f_access)))
      end
  | _ => Raise (TypeError "argument after ** must be a mapping")
  end.

Definition optional_dict_value (o : option (list (string * json))) : pyval :=
  match o with
  | Some d => PyJson (JObject d)
  | None => PyJson JNull
  end.

(** [component.dict()]: the fields in declaration order; the [type] entry
    is the member of [ComponentType] itself, not its value. *)
Definition dict (c : t) : pyval :=
  PyDict [("type", PyEnum (type c));
          ("props", PyJson (JObject (props c)));
          ("styles", optional_dict_value (styles c));
          ("accessibility", optional_dict_value (accessibility c))].

End UIComponent.

Module DesignPattern.

(** [class DesignPattern(BaseModel)]. *)
Record t := mk {
  pattern_type : string;
  context : list (string * json);
  constraints : list string
}.

(** The constructor call with [data] unpacked as keyword arguments. *)
Definition new (data : json) : result t :=
  match data with
  | JObject kwargs =>
      let f_pattern_type := required kwargs "pattern_type" validate_str "str type expected" in
      let f_context := required kwargs "context" validate_dict "value is not a valid dict" in
      let f_constraints := optional kwargs "constraints" validate_list_str "value is not a valid list" [] in
      match f_pattern_type, f_context, f_constraints with
      | inl pt, inl cx, inl cs => Ok (mk pt cx cs)
      | _, _, _ =>
          Raise (ValueError (validation_message "DesignPattern"
            (errors_of f_pattern_type ++ errors_of f_context ++ errors_of f_constraints)))
      end
  | _ => Raise (TypeError "argument after ** must be a mapping")
  end.

(** [pattern.dict()]. *)
Definition dict (p : t) : pyval :=
  PyDict [("pattern_type", PyJson (JStr (pattern_type p)));
          ("context", PyJson (JObject (context p)));
          ("constraints", PyJson (JList (List.map JStr (constraints p))))].

End DesignPattern.

(** ** The server *)

(** [request.headers] is case-insensitive in the header name. *)
Definition lower_ascii (c : ascii) : ascii :=
  let n := nat_of_ascii c in
  if ((65 <=? n)%nat && (n <=? 90)%nat)%bool then ascii_of_nat (n + 32) else c.

Fixpoint lower (s : string) : string :=
  match s with
  | EmptyString => EmptyString
  | String c rest => String (lower_ascii c) (lower rest)
  end.

(** [headers.get(name)]: the first value stored under [name], if any. *)
Fixpoint headers_get (headers : list (string * string)) (name : string) : option string :=
  match headers with
  | [] => None
  | (k, v) :: rest =>
      if String.eqb (lower k) (lower name) then Some v else headers_get rest name
  end.

(** [needle in haystack] on strings. *)
Fixpoint is_substring (needle haystack : string) : bool :=
  if String.prefix needle haystack then true
  else match haystack with
       | EmptyString => false
       | String _ rest => is_substring needle rest
       end.

(** [key in data] for JSON-decoded [data]: key membership for a dict,
    element membership for a list, substring test for a str, and
    [TypeError] for values that are not containers. *)
Definition contains (data : json) (key : string) : result bool :=
  match data with
  | JObject d => Ok (dict_has d key)
  | JList l =>
      Ok (existsb (fun x => match x with JStr s => String.eqb s key | _ => false end) l)
  | JStr s => Ok (is_substring key s)
  | JNull => Raise (TypeError "argument of type 'NoneType' is not iterable")
  | JBool _ => Raise (TypeError "argument of type 'bool' is not iterable")
  | JInt _ => Raise (TypeError "argument of type 'int' is not iterable")
  | JFloat _ => Raise (TypeError "argument of type 'float' is not iterable")
  end.

(** An incoming request.  [json_body] is the outcome of
    [await request.json()]: the decoded body, [ValueError] for a body that
    is not JSON, or whatever else reading the body raised. *)
Record Request := mkRequest {
  method : string;
  path : string;
  headers : list (string * string);
  json_body : result json
}.

Inductive Body :=
| JsonBody (j : json)
| TextBody (s : string).

Record Response := mkResponse {
  status : Z;
  reason : string;
  body : Body
}.

(** The response aiohttp sends for a raised [web.HTTPException]. *)
Definition error_response (c : HTTPError) (reason : string) : Response :=
  mkResponse (status_code c) reason (TextBody (status_text c +:+ ": " +:+ reason)).

Inductive endpoint := GenerateComponent | ApplyPattern | DetectBugs.

Inductive level := INFO | ERROR.

Module Server.

(** [class LovableMCPServer], with the records of the module logger. *)
Record t := mk {
  design_system : string;
  ui_framework : string;
  rate_limiter : RateLimiter.t;
  log : list (level * string)
}.

(** [LovableMCPServer()], given the two environment settings. *)
Definition init (design_system ui_framework : string) : t :=
  mk design_system ui_framework (RateLimiter.init 60)
     [(INFO, "[Setup] Routes configured");
      (INFO, "[Setup] Initializing Lovable MCP server...")].

(** Handler code: reads and updates the server, returns or raises. *)
Definition M (A : Type) : Type := t -> result A * t.

Definition ret {A : Type} (a : A) : M A := fun s => (Ok a, s).

Definition raise {A : Type} (e : exn) : M A := fun s => (Raise e, s).

Definition lift {A : Type} (r : result A) : M A := fun s => (r, s).

Definition bind {A B : Type} (m : M A) (k : A -> M B) : M B :=
  fun s =>
    match m s with
    | (Ok a, s1) => k a s1
    | (Raise e, s1) => (Raise e, s1)
    end.

Declare Scope handler_scope.
Delimit Scope handler_scope with handler.
Notation "x <- m ;; k" := (bind m (fun x => k))
  (at level 100, m at next level, right associativity) : handler_scope.
Notation "m ;;; k" := (bind m (fun _ => k))
  (at level 100, right associativity) : handler_scope.
Local Open Scope handler_scope.

(** [logger.info(msg)] / [logger.error(msg)]. *)
Definition logger (lvl : level) (msg : string) : M unit :=
  fun s => (Ok tt, mk (design_system s) (ui_framework s) (rate_limiter s)
                      (log s ++ [(lvl, msg)])).

(** [self.rate_limiter.is_rate_limited(api_key)]. *)
Definition is_rate_limited (api_key : string) (now : Q) : M bool :=
  fun s =>
    let '(r, rl) := RateLimiter.is_rate_limited (rate_limiter s) api_key now in
    (Ok r, mk (design_system s) (ui_framework s) rl (log s)).

(** [try: m  except ValueError as e: h e]. *)
Definition except_ValueError {A : Type} (m : M A) (h : exn -> M A) : M A :=
  fun s =>
    match m s with
    | (Raise (ValueError msg), s1) => h (ValueError msg) s1
    | r => r
    end.

(** The outer [try] of every handler:
    [except web.HTTPException: raise] and then
    [except Exception as e: logger.error(label + str(e)); raise
    web.HTTPInternalServerError(reason='Internal server error occurred')]. *)
Definition except_Exception {A : Type} (label : string) (m : M A) : M A :=
  fun s =>
    match m s with
    | (Raise e, s1) =>
        if is_HTTPException e then (Raise e, s1)
        else (logger ERROR (label +:+ exn_str e) ;;;
              raise (HTTPException HTTPInternalServerError "Internal server error occurred")) s1
    | r => r
    end.

(** [web.json_response(data)]: serialises [data] at once. *)
Definition json_response (data : pyval) : M Response :=
  match to_json data with
  | Some j => ret (mkResponse 200 "OK" (JsonBody j))
  | None => raise (TypeError "Object of type ComponentType is not JSON serializable")
  end.

(** [raise web.HTTPBadRequest(reason=reason)] with a computed [reason]:
    aiohttp refuses a reason that holds a line break, so that building
    the exception raises [ValueError] instead.  (The other reasons of
    the file are literals without line break.) *)
Definition raise_HTTPBadRequest {A : Type} (reason : string) : M A :=
  if has_newline reason
  then raise (ValueError "Reason cannot contain \n")
  else raise (HTTPException HTTPBadRequest reason).

(** [LovableMCPServer.validate_request]. *)
Definition validate_request (request : Request) (now : Q) : M string :=
  match headers_get (headers request) "X-API-Key" with
  | None | Some "" => raise (HTTPException HTTPUnauthorized "API key required")
  | Some api_key =>
      (* Check rate limiting *)
      limited <- is_rate_limited api_key now ;;
      if limited : bool
      then raise (HTTPException HTTPTooManyRequests "Rate limit exceeded. Please try again later.")
      else ret api_key
  end.

(** [LovableMCPServer.generate_component]: first the statements of the
    [try] block that follow [api_key = await self.validate_request(request)],
    then the handler.  An exception raised inside an [except] clause, here
    by [raise web.HTTPBadRequest(...)], leaves the inner [try] and reaches
    the outer one. *)
Definition generate_component_body (request : Request) (api_key : string) : M Response :=
  data <- except_ValueError (lift (json_body request))
            (fun _ => raise (HTTPException HTTPBadRequest "Invalid JSON payload")) ;;
  component <- except_ValueError (lift (UIComponent.new data))
            (fun e => raise_HTTPBadRequest ("Invalid component data: " +:+ exn_str e)) ;;
  logger INFO ("[UI] Generating component: " +:+
               ComponentType_str (UIComponent.type component)) ;;;
  (* TODO: Implement component generation logic *)
  json_response (PyDict [("status", PyJson (JStr "success"));
                         ("component", UIComponent.dict component)]).

Definition generate_component (request : Request) (now : Q) : M Response :=
  except_Exception "[Error] Component generation failed: "
    (api_key <- validate_request request now ;;
     generate_component_body request api_key).

(** [LovableMCPServer.apply_pattern]. *)
Definition apply_pattern_body (request : Request) (api_key : string) : M Response :=
  data <- except_ValueError (lift (json_body request))
            (fun _ => raise (HTTPException HTTPBadRequest "Invalid JSON payload")) ;;
  pattern <- except_ValueError (lift (DesignPattern.new data))
            (fun e => raise_HTTPBadRequest ("Invalid pattern data: " +:+ exn_str e)) ;;
  logger INFO ("[Pattern] Applying design pattern: " +:+
               DesignPattern.pattern_type pattern) ;;;
  (* TODO: Implement pattern application logic *)
  json_response (PyDict [("status", PyJson (JStr "success"));
                         ("pattern", DesignPattern.dict pattern)]).

Definition apply_pattern (request : Request) (now : Q) : M Response :=
  except_Exception "[Error] Pattern application failed: "
    (api_key <- validate_request request now ;;
     apply_pattern_body request api_key).

(** [LovableMCPServer.detect_bugs]; the test
    ['code' not in data or 'context' not in data] evaluates its second
    operand only when the first is false. *)
Definition detect_bugs_body (request : Request) (api_key : string) : M Response :=
  data <- except_ValueError (lift (json_body request))
            (fun _ => raise (HTTPException HTTPBadRequest "Invalid JSON payload")) ;;
  has_code <- lift (contains data "code") ;;
  (if negb has_code
   then raise (HTTPException HTTPBadRequest "Missing required fields: code and context")
   else
     has_context <- lift (contains data "context") ;;
     if negb has_context
     then raise (HTTPException HTTPBadRequest "Missing required fields: code and context")
     else ret tt) ;;;
  logger INFO "[Bug] Running bug detection" ;;;
  (* TODO: Implement bug detection logic *)
  json_response (PyDict [("status", PyJson (JStr "success"));
                         ("issues", PyJson (JList []))]).

Definition detect_bugs (request : Request) (now : Q) : M Response :=
  except_Exception "[Error] Bug detection failed: "
    (api_key <- validate_request request now ;;
     detect_bugs_body request api_key).

(** [setup_routes]: the routes it adds to the router. *)
Definition setup_routes : list (string * string * endpoint) :=
  [("POST", "/generate_component", GenerateComponent);
   ("POST", "/apply_pattern", ApplyPattern);
   ("POST", "/detect_bugs", DetectBugs)].

Definition handler (ep : endpoint) : Request -> Q -> M Response :=
  match ep with
  | GenerateComponent => generate_component
  | ApplyPattern => apply_pattern
  | DetectBugs => detect_bugs
  end.

(** The router: a route with the request's method and path, else 405 when
    only the path is known, else 404. *)
Definition resolve (request : Request) : endpoint + HTTPError :=
  match List.find (fun r => String.eqb (fst (fst r)) (method request) &&
                            String.eqb (snd (fst r)) (path request)) setup_routes with
  | Some r => inl (snd r)
  | None =>
      if existsb (fun r => String.eqb (snd (fst r)) (path request)) setup_routes
      then inr HTTPMethodNotAllowed
      else inr HTTPNotFound
  end.

(** What the web framework sends for the outcome of a handler. *)
Definition respond (r : result Response) : Response :=
  match r with
  | Ok resp => resp
  | Raise (HTTPException c reason) => error_response c reason
  | Raise _ => error_response HTTPInternalServerError (default_reason HTTPInternalServerError)
  end.

(** One request served from start to end: routing, then the handler. *)
Definition handle (request : Request) (now : Q) (s : t) : Response * t :=
  match resolve request with
  | inl ep =>
      let '(r, s1) := handler ep request now s in
      (respond r, s1)
  | inr c => (error_response c (default_reason c), s)
  end.

End Server.

(** ** Requests in flight on the event loop

    The handlers are coroutines run by one event loop: a coroutine keeps
    the loop until it reaches an [await] that suspends it.
    [validate_request] and [RateLimiter.is_rate_limited] contain no such
    [await], so a handler runs from its start to [await request.json()] in
    one piece, and from there to its end in another. *)

Module EventLoop.

Import Server.
Local Open Scope handler_scope.

Inductive coroutine :=
| NotStarted (ep : endpoint) (request : Request)
| AwaitingBody (ep : endpoint) (request : Request) (api_key : string)
| Returned (resp : Response).

Definition label (ep : endpoint) : string :=
  match ep with
  | GenerateComponent => "[Error] Component generation failed: "
  | ApplyPattern => "[Error] Pattern application failed: "
  | DetectBugs => "[Error] Bug detection failed: "
  end.

Definition body_of (ep : endpoint) : Request -> string -> M Response :=
  match ep with
  | GenerateComponent => generate_component_body
  | ApplyPattern => apply_pattern_body
  | DetectBugs => detect_bugs_body
  end.

Record t := mk {
  server : Server.t;
  tasks : list coroutine
}.

(** The loop gives control to task [i] while the clock reads [now]; the
    task runs to its next suspension.  The second component is the outcome
    of [validate_request] when this step ran it. *)
Definition step (i : nat) (now : Q) (l : t) : t * option (result string) :=
  match tasks l !! i with
  | Some (NotStarted ep request) =>
      match except_Exception (label ep) (validate_request request now) (server l) with
      | (Ok api_key, s1) =>
          (mk s1 (<[i := AwaitingBody ep request api_key]> (tasks l)), Some (Ok api_key))
      | (Raise e, s1) =>
          (mk s1 (<[i := Returned (respond (Raise e))]> (tasks l)), Some (Raise e))
      end
  | Some (AwaitingBody ep request api_key) =>
      let '(r, s1) := except_Exception (label ep) (body_of ep request api_key) (server l) in
      (mk s1 (<[i := Returned (respond r)]> (tasks l)), None)
  | Some (Returned _) | None => (l, None)
  end.

(** A schedule: which task runs next, and the clock reading then. *)
Fixpoint run (schedule : list (nat * Q)) (l : t) : t * list (result string) :=
  match schedule with
  | [] => (l, [])
  | (i, now) :: rest =>
      let '(l1, ev) := step i now l in
      let '(l2, evs) := run rest l1 in
      (l2, match ev with Some r => r :: evs | None => evs end)
  end.

(** The number of [validate_request] calls that admitted key [k]. *)
Definition admitted (k : string) (evs : list (result string)) : nat :=
  length (List.filter (fun r => match r with Ok k' => String.eqb k' k | Raise _ => false end) evs).

End EventLoop.

(** ** The payload shapes of the specification's data model

    These three predicates follow the words of the specification, not the
    code; the theorems on validation compare the handlers with them. *)

Definition spec_is_map (v : json) : bool :=
  match v with JObject _ => true | _ => false end.

Definition spec_is_string (v : json) : bool :=
  match v with JStr _ => true | _ => false end.

Definition spec_field (d : list (string * json)) (name : string) (ok : json -> bool) : bool :=
  match dict_get d name with
  | Some v => ok v
  | None => false
  end.

Definition spec_optional_field (d : list (string * json)) (name : string) (ok : json -> bool) : bool :=
  match dict_get d name with
  | Some v => ok v
  | None => true
  end.

Definition spec_optional_map (v : json) : bool :=
  match v with JNull | JObject _ => true | _ => false end.

Definition spec_component_type (v : json) : bool :=
  match v with
  | JStr s => existsb (String.eqb s) ["button"; "form"; "card"; "dialog"; "table"]
  | _ => false
  end.

Definition spec_list_of_strings (v : json) : bool :=
  match v with
  | JList l => forallb spec_is_string l
  | _ => false
  end.

(** [ComponentRequest{type: enum, props: map, styles: optional map,
    accessibility: optional map}]. *)
Definition spec_ComponentRequest (d : list (string * json)) : bool :=
  spec_field d "type" spec_component_type &&
  spec_field d "props" spec_is_map &&
  spec_optional_field d "styles" spec_optional_map &&
  spec_optional_field d "accessibility" spec_optional_map.

(** [PatternRequest{pattern_type: string, context: map, constraints:
    sequence of string (default empty)}]. *)
Definition spec_PatternRequest (d : list (string * json)) : bool :=
  spec_field d "pattern_type" spec_is_string &&
  spec_field d "context" spec_is_map &&
  spec_optional_field d "constraints" spec_list_of_strings.


(** What [detect_bugs] asks of a JSON object instead: both keys present. *)
Definition has_code_and_context (d : list (string * json)) : bool :=
  dict_has d "code" && dict_has d "context".

(** ** Measures used in the statements about the rate limiter *)

(** The number of timestamps of a window that are not older than [start]. *)
Definition live (start : Q) (w : list Q) : nat :=
  length (List.filter (fun t => Qle_bool start t) w).

(** Every window holds at most the configured number of timestamps. *)
Definition bounded (self : RateLimiter.t) : Prop :=
  forall k, Z.of_nat (length (RateLimiter.window self k)) <=
            Z.max 0 (RateLimiter.requests_per_minute self).

(** ** Notions used in the statements about the handlers *)

(** The API key header is absent or empty. *)
Definition missing_api_key (request : Request) : Prop :=
  headers_get (headers request) "X-API-Key" = None \/
  headers_get (headers request) "X-API-Key" = Some "".

(** The request carries the non-empty key [k] and the limiter admits it at
    the clock reading [now]. *)
Definition admitted_with (s : Server.t) (request : Request) (now : Q) (k : string) : Prop :=
  headers_get (headers request) "X-API-Key" = Some k /\ k <> "" /\
  fst (RateLimiter.is_rate_limited (Server.rate_limiter s) k now) = false.

(** The server once [validate_request] has admitted key [k] at [now]. *)
Definition after_admission (s : Server.t) (k : string) (now : Q) : Server.t :=
  Server.mk (Server.design_system s) (Server.ui_framework s)
    (snd (RateLimiter.is_rate_limited (Server.rate_limiter s) k now)) (Server.log s).

(** The statements inside the outer [try] of the handler of [ep]. *)
Definition try_body (ep : endpoint) (request : Request) (now : Q) : Server.M Response :=
  Server.bind (Server.validate_request request now)
              (fun api_key => EventLoop.body_of ep request api_key).

(** The server with one more record in its log. *)
Definition logged (s : Server.t) (lvl : level) (msg : string) : Server.t :=
  Server.mk (Server.design_system s) (Server.ui_framework s) (Server.rate_limiter s)
    (Server.log s ++ [(lvl, msg)]).

(** The one response sent for an internal fault. *)
Definition internal_error_response : Response :=
  error_response HTTPInternalServerError "Internal server error occurred".

(** The body [{"type": "button", "props": {}}]. *)
Definition button_body : json :=
  JObject [("type", JStr "button"); ("props", JObject [])].

(** The envelope [{"status": "success", "issues": []}]. *)
Definition no_issues_envelope : json :=
  JObject [("status", JStr "success"); ("issues", JList [])].

(** ** Concrete servers and requests used as instances *)

Definition fresh_server : Server.t := Server.init "default" "react".

(** [POST /generate_component] with key [test_key] and the button body. *)
Definition button_request : Request :=
  mkRequest "POST" "/generate_component" [("X-API-Key", "test_key")] (Ok button_body).

(** [POST /detect_bugs] with key [test_key] and the body
    [{"code": 5, "context": []}]. *)
Definition untyped_bugs_request : Request :=
  mkRequest "POST" "/detect_bugs" [("X-API-Key", "test_key")]
    (Ok (JObject [("code", JInt 5); ("context", JList [])])).

(** [POST /apply_pattern] with key [test_key] and the body
    [{"pattern_type": "card", "context": {}}]. *)
Definition card_pattern_request : Request :=
  mkRequest "POST" "/apply_pattern" [("X-API-Key", "test_key")]
    (Ok (JObject [("pattern_type", JStr "card"); ("context", JObject [])])).

(** [POST /generate_component] without any header. *)
Definition keyless_request : Request :=
  mkRequest "POST" "/generate_component" [] (Ok button_body).

(** [POST /unknown_path] without any header. *)
Definition keyless_unknown_request : Request :=
  mkRequest "POST" "/unknown_path" [] (Ok button_body).

(** [POST /detect_bugs] with key [test_key] whose body cannot be read:
    the read fails with an exception that carries internal detail. *)
Definition broken_read_request : Request :=
  mkRequest "POST" "/detect_bugs" [("X-API-Key", "test_key")]
    (Raise (OtherException "ConnectionResetError" "peer 10.0.0.7 reset the connection")).

(** ** Instances for the event loop *)

(** A server whose limiter allows two requests per minute. *)
Definition strict_server : Server.t :=
  Server.mk "default" "react" (RateLimiter.init 2) [].

(** Three requests with the same key, none started yet. *)
Definition three_in_flight : EventLoop.t :=
  EventLoop.mk strict_server
    [EventLoop.NotStarted GenerateComponent button_request;
     EventLoop.NotStarted DetectBugs untyped_bugs_request;
     EventLoop.NotStarted ApplyPattern card_pattern_request].

(** The loop starts the three, the last one first, and then lets them
    finish in another order. *)
Definition interleaved_schedule : list (nat * Q) :=
  [(2%nat, 0%Q); (0%nat, (1 # 10)%Q); (2%nat, (2 # 10)%Q);
   (1%nat, (3 # 10)%Q); (0%nat, (4 # 10)%Q); (1%nat, (5 # 10)%Q)].

(** Handler code that leaves the rate limiter as it finds it. *)
Definition keeps_limiter {A : Type} (m : Server.M A) : Prop :=
  forall s, Server.rate_limiter (snd (m s)) = Server.rate_limiter s.

(** The number of timestamps not older than [start] that the server's
    limiter holds for key [k]. *)
Definition live_for (start : Q) (k : string) (s : Server.t) : nat :=
  live start (RateLimiter.window (Server.rate_limiter s) k).

(** ** Further notions: routing, sequences of requests, orderings *)

(** The path under which [setup_routes] registers the handler of [ep]. *)
Definition path_of (ep : endpoint) : string :=
  match ep with
  | GenerateComponent => "/generate_component"
  | ApplyPattern => "/apply_pattern"
  | DetectBugs => "/detect_bugs"
  end.

(** The clock readings of the calls of a trace that are for key [k]. *)
Definition readings_for (k : string) (cs : list (string * Q)) : list Q :=
  List.map snd (List.filter (fun c => String.eqb (fst c) k) cs).

(** The results of a trace at the calls that are for key [k]. *)
Fixpoint results_for (k : string) (cs : list (string * Q)) (rs : list bool) : list bool :=
  match cs, rs with
  | (k', _) :: cs', r :: rs' =>
      if String.eqb k' k then r :: results_for k cs' rs' else results_for k cs' rs'
  | _, _ => []
  end.

(** Requests served one after the other, each at its clock reading. *)
Fixpoint serve (s : Server.t) (reqs : list (Request * Q)) : list Response * Server.t :=
  match reqs with
  | [] => ([], s)
  | (request, now) :: rest =>
      let '(resp, s1) := Server.handle request now s in
      let '(resps, s2) := serve s1 rest in
      (resp :: resps, s2)
  end.

(** A window lists its timestamps oldest first. *)
Fixpoint ascending (w : list Q) : Prop :=
  match w with
  | [] => True
  | t :: rest => Forall (fun u => (t <= u)%Q) rest /\ ascending rest
  end.

(** The clock never runs backwards along a trace. *)
Fixpoint clock_monotone (last : Q) (cs : list (string * Q)) : Prop :=
  match cs with
  | [] => True
  | (_, now) :: rest => (last <= now)%Q /\ clock_monotone now rest
  end.

(** The strict server once its two admissions are used up by [test_key]. *)
Definition exhausted_server : Server.t :=
  snd (serve strict_server [(button_request, 0%Q); (card_pattern_request, 1%Q)]).

(** [POST /apply_pattern] with key [test_key] whose body is not JSON. *)
Definition malformed_request : Request :=
  mkRequest "POST" "/apply_pattern" [("X-API-Key", "test_key")]
    (Raise (ValueError "Expecting value: line 1 column 1 (char 0)")).

(** [POST /detect_bugs] with key [test_key] and the JSON array
    [["context", "code"]] as body. *)
Definition array_bugs_request : Request :=
  mkRequest "POST" "/detect_bugs" [("X-API-Key", "test_key")]
    (Ok (JList [JStr "context"; JStr "code"])).

(** ** The tools: [src/tools]

    The three collaborator classes log to the same logger as the server;
    their methods are functions that return their value together with the
    records they log. *)

Inductive severity := Info | Warning | Error.

Definition records := list (severity * string).

(** [d[key] = v] on a dict: the value is replaced where the key is bound,
    else the binding is added at the end. *)
Fixpoint dict_set {V : Type} (d : list (string * V)) (key : string) (v : V)
    : list (string * V) :=
  match d with
  | [] => [(key, v)]
  | (k, x) :: rest =>
      if String.eqb k key then (k, v) :: rest else (k, x) :: dict_set rest key v
  end.

Module ComponentGenerator.

(** [class ComponentGenerator]. *)
Record t := mk {
  design_system : string;
  ui_framework : string
}.

(** [ComponentGenerator(design_system, ui_framework)]. *)
Definition init (design_system ui_framework : string) : t * records :=
  (mk design_system ui_framework,
   [(Info, "[ComponentGenerator] Initialized with " +:+ design_system +:+
           " and " +:+ ui_framework)]).

(** [_generate_code]. *)
Definition _generate_code (component : UIComponent.t) : string :=
  "// " +:+ ComponentType_value (UIComponent.type component) +:+ " component placeholder".

(** [not component.accessibility]: [None] and the empty dict are falsy. *)
Definition accessibility_missing (component : UIComponent.t) : bool :=
  match UIComponent.accessibility component with
  | None | Some [] => true
  | Some (_ :: _) => false
  end.

(** [_validate_accessibility]. *)
Definition _validate_accessibility (component : UIComponent.t) : records :=
  if accessibility_missing component
  then [(Warning, "[ComponentGenerator] No accessibility properties specified")]
  else [(Info, "[ComponentGenerator] Accessibility validation passed")].

(** [_apply_responsive_design]. *)
Definition _apply_responsive_design (code : string) : string * records :=
  (code, [(Info, "[ComponentGenerator] Applied responsive design")]).

(** [ComponentGenerator.generate_component].  Modelled from the spec: the
    class [UIComponent] of [models/components.py] is not among the
    sources; it is taken to be the ComponentRequest of the data model,
    the record [UIComponent.t].  No statement of the [try] block raises,
    so its [except] clause is never entered. *)
Definition generate_component (self : t) (component : UIComponent.t)
    : list (string * json) * records :=
  let log0 := [(Info, "[ComponentGenerator] Generating " +:+
                      ComponentType_value (UIComponent.type component) +:+ " component")] in
  (* Generate component code based on type *)
  let code := _generate_code component in
  (* Validate accessibility *)
  let log1 := _validate_accessibility component in
  (* Apply responsive design *)
  let '(code, log2) := _apply_responsive_design code in
  ([("code", JStr code);
    ("type", JStr (ComponentType_value (UIComponent.type component)));
    ("framework", JStr (ui_framework self));
    ("design_system", JStr (design_system self))],
   log0 ++ log1 ++ log2).

End ComponentGenerator.

Module PatternImplementer.

(** [class PatternImplementer]. *)
Record t := mk {
  ui_framework : string
}.

(** [_validate_constraints]. *)
Definition _validate_constraints (constraints : list string) : records :=
  [(Info, "[PatternImplementer] Pattern constraints validated")].

(** [_generate_implementation]. *)
Definition _generate_implementation (pattern : DesignPattern.t) : string :=
  "// " +:+ DesignPattern.pattern_type pattern +:+ " pattern implementation placeholder".

(** [_apply_customizations]. *)
Definition _apply_customizations (implementation : string)
    (context : list (string * json)) : string * records :=
  (implementation, [(Info, "[PatternImplementer] Applied pattern customizations")]).

(** [PatternImplementer.apply_pattern].  Modelled from the spec: the class
    [DesignPattern] of [models/patterns.py] is not among the sources; it
    is taken to be the PatternRequest of the data model, the record
    [DesignPattern.t]. *)
Definition apply_pattern (self : t) (pattern : DesignPattern.t)
    : list (string * json) * records :=
  let log0 := [(Info, "[PatternImplementer] Applying " +:+
                      DesignPattern.pattern_type pattern +:+ " pattern")] in
  (* Validate pattern constraints *)
  let log1 := _validate_constraints (DesignPattern.constraints pattern) in
  (* Generate pattern implementation *)
  let implementation := _generate_implementation pattern in
  (* Apply customizations based on context *)
  let '(implementation, log2) :=
    _apply_customizations implementation (DesignPattern.context pattern) in
  ([("implementation", JStr implementation);
    ("pattern_type", JStr (DesignPattern.pattern_type pattern));
    ("framework", JStr (ui_framework self))],
   log0 ++ log1 ++ log2).

End PatternImplementer.

Module BugDetector.

(** [class BugDetector]: [known_issues] is a set, empty at creation. *)
Record t := mk {
  known_issues : gset string
}.

(** [BugDetector()]. *)
Definition init : t * records :=
  (mk ∅, [(Info, "[BugDetector] Initializing bug detection system")]).

(** An issue is a dict. *)
Definition issue := list (string * json).

(** [_static_analysis]. *)
Definition _static_analysis (code : string) : list issue * records :=
  ([], [(Info, "[BugDetector] Completed static analysis")]).

(** [_check_ui_consistency]. *)
Definition _check_ui_consistency (code : string) (context : list (string * json))
    : list issue * records :=
  ([], [(Info, "[BugDetector] Completed UI consistency check")]).

(** The body of the loop of [_generate_fix_suggestions] for one issue. *)
Definition suggest_fix (i : issue) : issue :=
  dict_set (dict_set i "fix_suggestion" (JStr "Placeholder fix suggestion"))
           "auto_fixable" (JBool false).

(** [_generate_fix_suggestions]: the issues are updated in place and the
    list itself is returned. *)
Definition _generate_fix_suggestions (issues : list issue) : list issue * records :=
  (List.map suggest_fix issues,
   [(Info, "[BugDetector] Generated " +:+ pretty (length issues) +:+ " fix suggestions")]).

(** [BugDetector.detect_bugs]. *)
Definition detect_bugs (self : t) (code : string) (context : list (string * json))
    : list issue * records :=
  let log0 := [(Info, "[BugDetector] Starting bug detection")] in
  (* Perform static analysis *)
  let '(static_issues, log1) := _static_analysis code in
  (* Check UI consistency *)
  let '(ui_issues, log2) := _check_ui_consistency code context in
  (* Generate fix suggestions *)
  let all_issues := static_issues ++ ui_issues in
  let '(issues_with_fixes, log3) := _generate_fix_suggestions all_issues in
  (issues_with_fixes, log0 ++ log1 ++ log2 ++ log3).

(** [BugDetector.apply_fix]. *)
Definition apply_fix (self : t) (code : string) (issue_id : string) : string * records :=
  (code, [(Info, "[BugDetector] Applying fix for issue " +:+ issue_id)]).

End BugDetector.

(** An issue as the detector could report it, used as an instance. *)
Definition sample_issue : BugDetector.issue :=
  [("id", JStr "a11y-1"); ("auto_fixable", JBool true); ("type", JStr "accessibility")].

(** The number of calls of a sequence that were admitted at a clock
    reading of the span [[start, start + 60)]; [rs] are the results of the
    calls made at the readings [nows]. *)
Fixpoint admitted_within (start : Q) (nows : list Q) (rs : list bool) : nat :=
  match nows, rs with
  | now :: nows', r :: rs' =>
      ((if Qle_bool start now && RateLimiter.Qgtb (start + 60) now && negb r
        then 1 else 0) + admitted_within start nows' rs')%nat
  | _, _ => 0%nat
  end.

(** [POST /generate_component] with key [test_key] and a JSON array as
    body. *)
Definition array_component_request : Request :=
  mkRequest "POST" "/generate_component" [("X-API-Key", "test_key")] (Ok (JList [])).

(** The key under which a request reaches the limiter: the request is
    routed to a handler and its [X-API-Key] header is not empty. *)
Definition limiter_key (request : Request) : option string :=
  match Server.resolve request with
  | inl _ =>
      match headers_get (headers request) "X-API-Key" with
      | Some k => if String.eqb k "" then None else Some k
      | None => None
      end
  | inr _ => None
  end.

(** The calls that serving [reqs] makes to the limiter. *)
Fixpoint limiter_calls (reqs : list (Request * Q)) : list (string * Q) :=
  match reqs with
  | [] => []
  | (request, now) :: rest =>
      match limiter_key request with
      | Some k => (k, now) :: limiter_calls rest
      | None => limiter_calls rest
      end
  end.

(** For the requests that reach the limiter: whether the answer was 429. *)
Fixpoint answers_429 (reqs : list (Request * Q)) (resps : list Response) : list bool :=
  match reqs, resps with
  | (request, _) :: reqs', resp :: resps' =>
      match limiter_key request with
      | Some _ => (status resp =? 429) :: answers_429 reqs' resps'
      | None => answers_429 reqs' resps'
      end
  | _, _ => []
  end.

(** Reading the body of the request does not raise the HTTP error 429. *)
Definition body_read_not_429 (request : Request) : Prop :=
  forall r, json_body request <> Raise (HTTPException HTTPTooManyRequests r).

(** * Theorems *)

(** ** The rate limiter *)

Section RateLimiterFacts.

Import RateLimiter.

Lemma Qgtb_true (x y : Q) : Qgtb x y = true <-> (y < x)%Q.
Proof.
  unfold Qgtb. rewrite negb_true_iff. split.
  - intros H. apply Qnot_le_lt. intros Hle.
    apply Qle_bool_iff in Hle. congruence.
  - intros H. destruct (Qle_bool x y) eqn:E; [|reflexivity].
    apply Qle_bool_iff in E. exfalso. apply (Qlt_not_le _ _ H E).
Qed.

Lemma Qgtb_false (x y : Q) : Qgtb x y = false <-> (x <= y)%Q.
Proof.
  unfold Qgtb. rewrite negb_false_iff. apply Qle_bool_iff.
Qed.

Lemma prune_In (m : Q) (w : list Q) (t : Q) :
  In t (prune m w) <-> In t w /\ (m < t)%Q.
Proof.
  unfold prune. rewrite filter_In, Qgtb_true. reflexivity.
Qed.

Lemma prune_Forall (m : Q) (w : list Q) :
  Forall (fun t => (m < t)%Q) (prune m w).
Proof.
  apply List.Forall_forall. intros t Ht. apply prune_In in Ht. tauto.
Qed.


Lemma prune_length (m : Q) (w : list Q) : (length (prune m w) <= length w)%nat.
Proof. apply List.filter_length_le. Qed.

(** [prune] by the threshold [now - 60] is the selection of the
    timestamps whose age [now - t] is strictly below 60. *)
Lemma prune_by_age (now : Q) (w : list Q) :
  prune (now - 60) w = List.filter (fun t => Qgtb 60 (now - t)) w.
Proof.
  unfold prune. apply List.filter_ext. intros t.
  destruct (Qgtb t (now - 60)) eqn:E1, (Qgtb 60 (now - t)) eqn:E2; try reflexivity.
  - apply Qgtb_true in E1. apply Qgtb_false in E2. lra.
  - apply Qgtb_false in E1. apply Qgtb_true in E2. lra.
Qed.

Lemma window_init (rpm : Z) (k : string) : window (init rpm) k = [].
Proof. reflexivity. Qed.

Lemma is_rate_limited_fst (self : t) (k : string) (now : Q) :
  fst (is_rate_limited self k now) =
  (Z.of_nat (length (prune (now - 60) (window self k))) >=? requests_per_minute self).
Proof.
  unfold is_rate_limited. cbv zeta.
  destruct (_ >=? _); reflexivity.
Qed.

Lemma is_rate_limited_window (self : t) (k : string) (now : Q) :
  window (snd (is_rate_limited self k now)) k =
  prune (now - 60) (window self k) ++
  (if fst (is_rate_limited self k now) then [] else [now]).
Proof.
  unfold is_rate_limited. cbv zeta.
  destruct (_ >=? _); unfold window; simpl.
  - rewrite lookup_insert_eq. simpl. rewrite app_nil_r. reflexivity.
  - rewrite !lookup_insert_eq. reflexivity.
Qed.

Lemma is_rate_limited_other (self : t) (k k' : string) (now : Q) :
  k' <> k -> window (snd (is_rate_limited self k now)) k' = window self k'.
Proof.
  intros Hne. unfold is_rate_limited. cbv zeta.
  destruct (_ >=? _); unfold window; simpl.
  - rewrite lookup_insert_ne by congruence. reflexivity.
  - rewrite !lookup_insert_ne by congruence. reflexivity.
Qed.

Lemma is_rate_limited_rpm (self : t) (k : string) (now : Q) :
  requests_per_minute (snd (is_rate_limited self k now)) = requests_per_minute self.
Proof.
  unfold is_rate_limited. cbv zeta. destruct (_ >=? _); reflexivity.
Qed.

End RateLimiterFacts.

Section RateLimiterSequences.

Import RateLimiter.

Lemma calls_cons (self : t) (k : string) (now : Q) (rest : list Q) :
  calls self k (now :: rest) =
  (fst (is_rate_limited self k now) :: fst (calls (snd (is_rate_limited self k now)) k rest),
   snd (calls (snd (is_rate_limited self k now)) k rest)).
Proof.
  simpl. destruct (is_rate_limited self k now) as [r self1]. simpl.
  destruct (calls self1 k rest) as [rs self2]. reflexivity.
Qed.







End RateLimiterSequences.

Section RateLimiterClaims.

Import RateLimiter.





End RateLimiterClaims.

Section RateLimiterWindow.

Import RateLimiter.


(** C6. On a call at time [now] the timestamps kept are exactly those of
    age [now - t] strictly below 60 seconds; the decision counts only
    these; a timestamp of age exactly 60 ([t == now - 60]) is dropped, so
    it is neither counted nor found in the window afterwards. *)
Theorem C6_age_60_is_pruned (self : t) (k : string) (now : Q) :
  let kept := List.filter (fun t => Qgtb 60 (now - t)) (window self k) in
  fst (is_rate_limited self k now) =
    (Z.of_nat (length kept) >=? requests_per_minute self) /\
  window (snd (is_rate_limited self k now)) k =
    kept ++ (if fst (is_rate_limited self k now) then [] else [now]) /\
  (forall t, In t kept <-> In t (window self k) /\ (now - t < 60)%Q) /\
  (forall t, (t == now - 60)%Q ->
     Qgtb 60 (now - t) = false /\ ~ In t kept /\
     ~ In t (window (snd (is_rate_limited self k now)) k)).
Proof.
  cbv zeta. rewrite <- prune_by_age.
  split; [apply is_rate_limited_fst|].
  split; [apply is_rate_limited_window|].
  split.
  - intros t. rewrite prune_In. split; intros [H1 H2]; split; auto; lra.
  - intros t Ht.
    assert (Hnot : ~ In t (prune (now - 60) (window self k))).
    { rewrite prune_In. intros [_ H]. lra. }
    split; [apply Qgtb_false; lra|]. split; [exact Hnot|].
    rewrite is_rate_limited_window. intros Hin. apply in_app_or in Hin as [Hin|Hin].
    + exact (Hnot Hin).
    + destruct (fst (is_rate_limited self k now)); simpl in Hin; [tauto|].
      destruct Hin as [Heq|[]]. subst t. lra.
Qed.

(** The boundary case on concrete numbers: with limit 1 and a timestamp
    recorded at 0, a call at 60 is admitted and a call just before is not
    (so the 60-second span of C2 is half-open). *)
Example boundary_at_60 :
  fst (calls (init 1) "k" [0%Q; 60%Q]) = [false; false] /\
  window (snd (calls (init 1) "k" [0%Q; 60%Q])) "k" = [60%Q] /\
  fst (calls (init 1) "k" [0%Q; (599 # 10)%Q]) = [false; true].
Proof. repeat split; vm_compute; reflexivity. Qed.

(** C8. The window invariant is kept by every call, for every key: right
    after the prune step every timestamp of the key's window is younger
    than 60 seconds (and not in the future when none was before); the
    window after the call is the pruned one, extended by [now] when the
    call is admitted; after an admitted call its length does not exceed
    the limit; the limit is unchanged and the windows of the other keys
    are untouched. *)
Theorem C8_window_invariant (self : t) (k : string) (now : Q) :
  let kept := prune (now - 60) (window self k) in
  let r := is_rate_limited self k now in
  Forall (fun t => (now - 60 < t)%Q) kept /\
  (Forall (fun t => (t <= now)%Q) (window self k) ->
   Forall (fun t => (now - 60 < t /\ t <= now)%Q) kept /\
   Forall (fun t => (now - 60 < t /\ t <= now)%Q) (window (snd r) k)) /\
  window (snd r) k = kept ++ (if fst r then [] else [now]) /\
  (fst r = false -> Z.of_nat (length (window (snd r) k)) <= requests_per_minute self) /\
  requests_per_minute (snd r) = requests_per_minute self /\
  (forall k', k' <> k -> window (snd r) k' = window self k').
Proof.
  cbv zeta.
  split; [apply prune_Forall|].
  split.
  { intros Hle.
    assert (Hk : Forall (fun t => (now - 60 < t /\ t <= now)%Q)
                   (prune (now - 60) (window self k))).
    { apply List.Forall_forall. intros t Ht. apply prune_In in Ht as [Hin Hlt].
      rewrite List.Forall_forall in Hle. split; [exact Hlt|apply Hle, Hin]. }
    split; [exact Hk|].
    rewrite is_rate_limited_window. apply List.Forall_app. split; [exact Hk|].
    destruct (fst (is_rate_limited self k now)); constructor; [lra|constructor]. }
  split; [apply is_rate_limited_window|].
  split.
  { intros Hadm. rewrite is_rate_limited_window, Hadm, length_app. simpl.
    rewrite is_rate_limited_fst, Z.geb_leb in Hadm. apply Z.leb_gt in Hadm. lia. }
  split; [apply is_rate_limited_rpm|].
  intros k' Hne. apply is_rate_limited_other. exact Hne.
Qed.

End RateLimiterWindow.

Section RateLimiterRecovery.

Import RateLimiter.

Lemma bounded_init (rpm : Z) : bounded (init rpm).
Proof. intros k. rewrite window_init. simpl. lia. Qed.

Lemma bounded_is_rate_limited (self : t) (k : string) (now : Q) :
  bounded self -> bounded (snd (is_rate_limited self k now)).
Proof.
  intros Hb k'. rewrite is_rate_limited_rpm.
  destruct (String.eqb_spec k' k) as [->|Hne].
  - rewrite is_rate_limited_window.
    destruct (fst (is_rate_limited self k now)) eqn:E.
    + rewrite app_nil_r. specialize (Hb k).
      pose proof (prune_length (now - 60) (window self k)). lia.
    + rewrite is_rate_limited_fst, Z.geb_leb in E. apply Z.leb_gt in E.
      rewrite length_app. simpl. lia.
  - rewrite is_rate_limited_other by exact Hne. apply Hb.
Qed.

Lemma trace_cons (self : t) (k : string) (now : Q) (rest : list (string * Q)) :
  trace self ((k, now) :: rest) =
  (fst (is_rate_limited self k now) :: fst (trace (snd (is_rate_limited self k now)) rest),
   snd (trace (snd (is_rate_limited self k now)) rest)).
Proof.
  simpl. destruct (is_rate_limited self k now) as [r self1]. simpl.
  destruct (trace self1 rest) as [rs self2]. reflexivity.
Qed.

Lemma bounded_trace (cs : list (string * Q)) (self : t) :
  bounded self -> bounded (snd (trace self cs)).
Proof.
  revert self. induction cs as [|[k now] rest IH]; intros self Hb; [exact Hb|].
  rewrite trace_cons. simpl. apply IH, bounded_is_rate_limited, Hb.
Qed.

Lemma trace_rpm (cs : list (string * Q)) (self : t) :
  requests_per_minute (snd (trace self cs)) = requests_per_minute self.
Proof.
  revert self. induction cs as [|[k now] rest IH]; intros self; [reflexivity|].
  rewrite trace_cons. simpl. rewrite IH. apply is_rate_limited_rpm.
Qed.

(** Pruning a window that holds an expired timestamp makes it shorter. *)
Lemma prune_drops (m t : Q) (w : list Q) :
  In t w -> (t <= m)%Q -> (length (prune m w) < length w)%nat.
Proof.
  intros Hin Hle. induction w as [|x w IH]; [destruct Hin|].
  unfold prune in *. simpl. destruct Hin as [->|Hin].
  - apply Qgtb_false in Hle. rewrite Hle.
    pose proof (List.filter_length_le (fun t => Qgtb t m) w). lia.
  - specialize (IH Hin). destruct (Qgtb x m); simpl; lia.
Qed.

(** From a window within the bound, a call that finds an expired
    timestamp is admitted. *)
Lemma expired_then_admitted (self : t) (k : string) (t now : Q) :
  bounded self ->
  In t (window self k) -> (60 <= now - t)%Q ->
  fst (is_rate_limited self k now) = false.
Proof.
  intros Hb Hin Hage.
  rewrite is_rate_limited_fst, Z.geb_leb. apply Z.leb_gt.
  assert (Hlt : (length (prune (now - 60) (window self k)) < length (window self k))%nat).
  { apply prune_drops with t; [exact Hin|lra]. }
  specialize (Hb k). lia.
Qed.

(** C7. In every state the limiter reaches from its creation, by calls
    for any keys at any times (so also after [k] has been limited): once
    a timestamp recorded for [k], in particular the oldest, is more than
    60 seconds older than the clock reading of a new call for [k], that
    call is admitted. *)
Theorem C7_admitted_again_after_window_slides
    (L : Z) (cs : list (string * Q)) (k : string) (t now : Q) :
  In t (window (snd (trace (init L) cs)) k) ->
  (60 < now - t)%Q ->
  fst (is_rate_limited (snd (trace (init L) cs)) k now) = false.
Proof.
  intros Hin Hage.
  apply expired_then_admitted with t.
  - apply bounded_trace, bounded_init.
  - exact Hin.
  - lra.
Qed.

(** Scenario: limit 2, calls at 0, 1 and 2 are admitted, admitted and
    limited; the timestamp 0 is then in the window and a call at 61 finds
    it more than 60 seconds old. *)
Lemma C7_witness :
  fst (trace (init 2) [("k1", 0%Q); ("k1", 1%Q); ("k1", 2%Q)]) = [false; false; true] /\
  fst (is_rate_limited
         (snd (trace (init 2) [("k1", 0%Q); ("k1", 1%Q); ("k1", 2%Q)])) "k1" 61%Q) = false.
Proof.
  split.
  - vm_compute. reflexivity.
  - apply (C7_admitted_again_after_window_slides 2
             [("k1", 0%Q); ("k1", 1%Q); ("k1", 2%Q)] "k1" 0%Q 61%Q).
    + vm_compute. left. reflexivity.
    + lra.
Defined.

End RateLimiterRecovery.

(** ** The handlers *)

Section HandlerFacts.

Import Server.
Local Open Scope handler_scope.

Lemma handler_unfold (ep : endpoint) (request : Request) (now : Q) :
  handler ep request now = except_Exception (EventLoop.label ep) (try_body ep request now).
Proof. destruct ep; reflexivity. Qed.

Lemma except_Exception_bind {A B : Type} (l : string) (m : M A) (k : A -> M B) (s : Server.t) :
  except_Exception l (bind m k) s =
  match m s with
  | (Ok a, s1) => except_Exception l (k a) s1
  | (Raise e, s1) => except_Exception l (raise e) s1
  end.
Proof.
  unfold except_Exception, bind, raise. destruct (m s) as [[a|e] s1]; reflexivity.
Qed.

Lemma except_Exception_fault {A : Type} (l : string) (m : M A) (s s1 : Server.t) (e : exn) :
  m s = (Raise e, s1) -> is_HTTPException e = false ->
  except_Exception l m s =
  (Raise (HTTPException HTTPInternalServerError "Internal server error occurred"),
   logged s1 ERROR (l +:+ exn_str e)).
Proof.
  intros Hm He. unfold except_Exception. rewrite Hm, He. reflexivity.
Qed.

Lemma except_Exception_http {A : Type} (l : string) (m : M A) (s s1 : Server.t)
    (c : HTTPError) (reason : string) :
  m s = (Raise (HTTPException c reason), s1) ->
  except_Exception l m s = (Raise (HTTPException c reason), s1).
Proof.
  intros Hm. unfold except_Exception. rewrite Hm. reflexivity.
Qed.

Lemma except_Exception_ok {A : Type} (l : string) (m : M A) (s s1 : Server.t) (a : A) :
  m s = (Ok a, s1) -> except_Exception l m s = (Ok a, s1).
Proof.
  intros Hm. unfold except_Exception. rewrite Hm. reflexivity.
Qed.

Lemma validate_request_missing (request : Request) (now : Q) (s : Server.t) :
  missing_api_key request ->
  validate_request request now s =
  (Raise (HTTPException HTTPUnauthorized "API key required"), s).
Proof.
  intros [H|H]; unfold validate_request; rewrite H; reflexivity.
Qed.

Lemma validate_request_admitted (request : Request) (now : Q) (s : Server.t) (k : string) :
  admitted_with s request now k ->
  validate_request request now s = (Ok k, after_admission s k now).
Proof.
  intros (Hk & Hne & Hadm). unfold validate_request. rewrite Hk.
  destruct k as [|c k]; [congruence|].
  unfold bind, is_rate_limited, after_admission.
  destruct (RateLimiter.is_rate_limited (rate_limiter s) (String c k) now) as [r rl].
  simpl in Hadm. subst r. reflexivity.
Qed.

Lemma validate_request_limited (request : Request) (now : Q) (s : Server.t) (k : string) :
  headers_get (headers request) "X-API-Key" = Some k -> k <> "" ->
  fst (RateLimiter.is_rate_limited (rate_limiter s) k now) = true ->
  validate_request request now s =
  (Raise (HTTPException HTTPTooManyRequests "Rate limit exceeded. Please try again later."),
   after_admission s k now).
Proof.
  intros Hk Hne Hlim. unfold validate_request. rewrite Hk.
  destruct k as [|c k]; [congruence|].
  unfold bind, is_rate_limited, after_admission.
  destruct (RateLimiter.is_rate_limited (rate_limiter s) (String c k) now) as [r rl].
  simpl in Hlim. subst r. reflexivity.
Qed.

(** A routed and admitted request: what remains is the handler's code
    after [validate_request], under the outer [try]. *)
Lemma handle_admitted (s : Server.t) (request : Request) (now : Q) (k : string) (ep : endpoint) :
  resolve request = inl ep ->
  admitted_with s request now k ->
  handle request now s =
  (respond (fst (except_Exception (EventLoop.label ep) (EventLoop.body_of ep request k)
                   (after_admission s k now))),
   snd (except_Exception (EventLoop.label ep) (EventLoop.body_of ep request k)
          (after_admission s k now))).
Proof.
  intros Hr Ha. unfold handle. rewrite Hr, handler_unfold. unfold try_body.
  rewrite except_Exception_bind, (validate_request_admitted _ _ _ _ Ha).
  destruct (except_Exception _ _ _) as [r s1]. reflexivity.
Qed.

Lemma resolve_post (request : Request) (ep : endpoint) :
  method request = "POST" ->
  path request = match ep with
                 | GenerateComponent => "/generate_component"
                 | ApplyPattern => "/apply_pattern"
                 | DetectBugs => "/detect_bugs"
                 end ->
  resolve request = inl ep.
Proof.
  intros Hm Hp. unfold resolve. rewrite Hm, Hp. destruct ep; reflexivity.
Qed.

End HandlerFacts.

Section HandlerBodies.

Import Server.
Local Open Scope handler_scope.

Variables (request : Request) (k : string) (s1 : Server.t).

(** [component.dict()] never serialises: its [type] entry is an enum
    member. *)
Lemma component_envelope_not_serialisable (c : UIComponent.t) :
  to_json (PyDict [("status", PyJson (JStr "success"));
                   ("component", UIComponent.dict c)]) = None.
Proof. reflexivity. Qed.

Lemma generate_component_body_valid (data : json) (c : UIComponent.t) :
  json_body request = Ok data ->
  UIComponent.new data = Ok c ->
  except_Exception (EventLoop.label GenerateComponent)
    (generate_component_body request k) s1 =
  (Raise (HTTPException HTTPInternalServerError "Internal server error occurred"),
   logged (logged s1 INFO ("[UI] Generating component: " +:+
                           ComponentType_str (UIComponent.type c)))
     ERROR "[Error] Component generation failed: Object of type ComponentType is not JSON serializable").
Proof.
  intros Hb Hn.
  unfold except_Exception, generate_component_body, bind, except_ValueError, lift.
  rewrite Hb, Hn. reflexivity.
Qed.

Lemma has_newline_app (a b : string) :
  has_newline (a +:+ b) = has_newline a || has_newline b.
Proof.
  induction a as [|c a IH]; [reflexivity|].
  change (String c a +:+ b) with (String c (a +:+ b)).
  cbn [has_newline]. rewrite IH. apply orb_assoc.
Qed.

(** An invalid model: the reason built from the multi-line text of the
    [ValidationError] is refused, and the outer [try] answers with the
    generic 500. *)
Lemma generate_component_body_invalid (data : json) (msg : string) :
  json_body request = Ok data ->
  UIComponent.new data = Raise (ValueError msg) ->
  has_newline msg = true ->
  except_Exception (EventLoop.label GenerateComponent)
    (generate_component_body request k) s1 =
  (Raise (HTTPException HTTPInternalServerError "Internal server error occurred"),
   logged s1 ERROR "[Error] Component generation failed: Reason cannot contain \n").
Proof.
  intros Hb Hn Hnl.
  unfold except_Exception, generate_component_body, bind, except_ValueError, lift,
    raise_HTTPBadRequest.
  rewrite Hb, Hn. cbn [exn_str]. rewrite has_newline_app, Hnl, orb_true_r. reflexivity.
Qed.

Lemma apply_pattern_body_valid (data : json) (p : DesignPattern.t) :
  json_body request = Ok data ->
  DesignPattern.new data = Ok p ->
  except_Exception (EventLoop.label ApplyPattern)
    (apply_pattern_body request k) s1 =
  (Ok (mkResponse 200 "OK"
         (JsonBody (JObject
            [("status", JStr "success");
             ("pattern", JObject
                [("pattern_type", JStr (DesignPattern.pattern_type p));
                 ("context", JObject (DesignPattern.context p));
                 ("constraints", JList (List.map JStr (DesignPattern.constraints p)))])]))),
   logged s1 INFO ("[Pattern] Applying design pattern: " +:+ DesignPattern.pattern_type p)).
Proof.
  intros Hb Hn.
  unfold except_Exception, apply_pattern_body, bind, except_ValueError, lift.
  rewrite Hb, Hn. reflexivity.
Qed.

Lemma apply_pattern_body_invalid (data : json) (msg : string) :
  json_body request = Ok data ->
  DesignPattern.new data = Raise (ValueError msg) ->
  has_newline msg = true ->
  except_Exception (EventLoop.label ApplyPattern)
    (apply_pattern_body request k) s1 =
  (Raise (HTTPException HTTPInternalServerError "Internal server error occurred"),
   logged s1 ERROR "[Error] Pattern application failed: Reason cannot contain \n").
Proof.
  intros Hb Hn Hnl.
  unfold except_Exception, apply_pattern_body, bind, except_ValueError, lift,
    raise_HTTPBadRequest.
  rewrite Hb, Hn. cbn [exn_str]. rewrite has_newline_app, Hnl, orb_true_r. reflexivity.
Qed.

Lemma detect_bugs_body_object (d : list (string * json)) :
  json_body request = Ok (JObject d) ->
  except_Exception (EventLoop.label DetectBugs)
    (detect_bugs_body request k) s1 =
  if has_code_and_context d
  then (Ok (mkResponse 200 "OK" (JsonBody no_issues_envelope)),
        logged s1 INFO "[Bug] Running bug detection")
  else (Raise (HTTPException HTTPBadRequest "Missing required fields: code and context"), s1).
Proof.
  intros Hb.
  unfold except_Exception, detect_bugs_body, bind, except_ValueError, lift.
  rewrite Hb. unfold has_code_and_context, contains.
  destruct (dict_has d "code"); [|reflexivity].
  destruct (dict_has d "context"); reflexivity.
Qed.

End HandlerBodies.

(** ** The pydantic models against the specification's payload shapes *)

Section ModelsAgainstSpec.

Lemma required_spec {A : Type} (d : list (string * json)) (name : string)
    (validate : json -> option A) (ok : json -> bool) (expected : string) :
  (forall v, ok v = match validate v with Some _ => true | None => false end) ->
  match required d name validate expected with
  | inl _ => spec_field d name ok = true
  | inr _ => spec_field d name ok = false
  end.
Proof.
  intros H. unfold required, spec_field.
  destruct (dict_get d name) as [v|]; [|reflexivity].
  rewrite H. destruct (validate v); reflexivity.
Qed.

Lemma optional_spec {A : Type} (d : list (string * json)) (name : string)
    (validate : json -> option A) (ok : json -> bool) (expected : string) (dflt : A) :
  (forall v, ok v = match validate v with Some _ => true | None => false end) ->
  match optional d name validate expected dflt with
  | inl _ => spec_optional_field d name ok = true
  | inr _ => spec_optional_field d name ok = false
  end.
Proof.
  intros H. unfold optional, spec_optional_field.
  destruct (dict_get d name) as [v|]; [|reflexivity].
  rewrite H. destruct (validate v); reflexivity.
Qed.

Lemma validate_enum_spec (v : json) :
  spec_component_type v = match validate_enum v with Some _ => true | None => false end.
Proof.
  destruct v; try reflexivity.
  unfold spec_component_type, validate_enum, ComponentType_of_value, ComponentType_members.
  cbn [List.find existsb ComponentType_value].
  rewrite !(String.eqb_sym s).
  destruct (String.eqb "button" s); [reflexivity|].
  destruct (String.eqb "form" s); [reflexivity|].
  destruct (String.eqb "card" s); [reflexivity|].
  destruct (String.eqb "dialog" s); [reflexivity|].
  destruct (String.eqb "table" s); reflexivity.
Qed.

Lemma validate_dict_spec (v : json) :
  spec_is_map v = match validate_dict v with Some _ => true | None => false end.
Proof. destruct v; reflexivity. Qed.

Lemma validate_optional_dict_spec (v : json) :
  spec_optional_map v = match validate_optional_dict v with Some _ => true | None => false end.
Proof. destruct v; reflexivity. Qed.

Lemma validate_str_spec (v : json) :
  spec_is_string v = match validate_str v with Some _ => true | None => false end.
Proof. destruct v; reflexivity. Qed.

Lemma validate_list_str_spec (v : json) :
  spec_list_of_strings v = match validate_list_str v with Some _ => true | None => false end.
Proof.
  destruct v; try reflexivity. cbn [spec_list_of_strings validate_list_str].
  induction l as [|x l IH]; [reflexivity|].
  cbn [forallb validate_list_str_items]. rewrite IH, validate_str_spec.
  destruct (validate_str x); [|reflexivity].
  destruct (validate_list_str_items l); reflexivity.
Qed.

(** The constructor of [UIComponent] accepts a JSON object exactly when it
    has the shape of a ComponentRequest, and fails with a
    [ValidationError] otherwise. *)
Lemma UIComponent_new_spec (d : list (string * json)) :
  match UIComponent.new (JObject d) with
  | Ok _ => spec_ComponentRequest d = true
  | Raise (ValueError _) => spec_ComponentRequest d = false
  | Raise _ => False
  end.
Proof.
  unfold UIComponent.new, spec_ComponentRequest.
  pose proof (required_spec d "type" validate_enum spec_component_type
                "value is not a valid enumeration member" validate_enum_spec) as H1.
  pose proof (required_spec d "props" validate_dict spec_is_map
                "value is not a valid dict" validate_dict_spec) as H2.
  pose proof (optional_spec d "styles" validate_optional_dict spec_optional_map
                "value is not a valid dict" None validate_optional_dict_spec) as H3.
  pose proof (optional_spec d "accessibility" validate_optional_dict spec_optional_map
                "value is not a valid dict" None validate_optional_dict_spec) as H4.
  destruct (required d "type" _ _); destruct (required d "props" _ _);
    destruct (optional d "styles" _ _ _); destruct (optional d "accessibility" _ _ _);
    rewrite H1, H2, H3, H4; reflexivity.
Qed.

Lemma DesignPattern_new_spec (d : list (string * json)) :
  match DesignPattern.new (JObject d) with
  | Ok _ => spec_PatternRequest d = true
  | Raise (ValueError _) => spec_PatternRequest d = false
  | Raise _ => False
  end.
Proof.
  unfold DesignPattern.new, spec_PatternRequest.
  pose proof (required_spec d "pattern_type" validate_str spec_is_string
                "str type expected" validate_str_spec) as H1.
  pose proof (required_spec d "context" validate_dict spec_is_map
                "value is not a valid dict" validate_dict_spec) as H2.
  pose proof (optional_spec d "constraints" validate_list_str spec_list_of_strings
                "value is not a valid list" [] validate_list_str_spec) as H3.
  destruct (required d "pattern_type" _ _); destruct (required d "context" _ _);
    destruct (optional d "constraints" _ _ _);
    rewrite H1, H2, H3; reflexivity.
Qed.

Lemma validation_message_has_newline (model : string) (errs : list field_error) :
  errs <> [] -> has_newline (validation_message model errs) = true.
Proof.
  intros Hne. destruct errs as [|e rest]; [congruence|].
  unfold validation_message. cbn [List.fold_right].
  rewrite !has_newline_app.
  change (has_newline newline) with true.
  cbn [orb]. rewrite !orb_true_r. reflexivity.
Qed.

(** The text of a [ValidationError] of either model spans several lines. *)
Lemma UIComponent_new_message (data : json) (msg : string) :
  UIComponent.new data = Raise (ValueError msg) -> has_newline msg = true.
Proof.
  unfold UIComponent.new. destruct data as [| | | | | |d]; try discriminate.
  destruct (required d "type" _ _); destruct (required d "props" _ _);
    destruct (optional d "styles" _ _ _); destruct (optional d "accessibility" _ _ _);
    intros H; try discriminate H; injection H as <-;
    apply validation_message_has_newline; cbn [errors_of app]; discriminate.
Qed.

Lemma DesignPattern_new_message (data : json) (msg : string) :
  DesignPattern.new data = Raise (ValueError msg) -> has_newline msg = true.
Proof.
  unfold DesignPattern.new. destruct data as [| | | | | |d]; try discriminate.
  destruct (required d "pattern_type" _ _); destruct (required d "context" _ _);
    destruct (optional d "constraints" _ _ _);
    intros H; try discriminate H; injection H as <-;
    apply validation_message_has_newline; cbn [errors_of app]; discriminate.
Qed.

End ModelsAgainstSpec.

(** ** The claims on the handlers *)

Section HandlerClaims.

Import Server.

(** C1. A request [POST /generate_component] with a non-empty key that the
    limiter admits and the body [{"type": "button", "props": {}}] is NOT
    answered 200: [component.dict()] keeps the enum member
    [ComponentType.BUTTON] under [type], [web.json_response] cannot
    serialise it, and the [TypeError] is turned into the response 500
    "Internal server error occurred". *)
Theorem C1_button_request_is_answered_500
    (s : Server.t) (request : Request) (now : Q) (k : string) :
  method request = "POST" ->
  path request = "/generate_component" ->
  admitted_with s request now k ->
  json_body request = Ok button_body ->
  fst (handle request now s) = internal_error_response /\
  status (fst (handle request now s)) = 500 /\
  log (snd (handle request now s)) =
    log s ++ [(INFO, "[UI] Generating component: ComponentType.BUTTON");
              (ERROR, "[Error] Component generation failed: Object of type ComponentType is not JSON serializable")].
Proof.
  intros Hm Hp Ha Hb.
  rewrite (handle_admitted s request now k GenerateComponent
             (resolve_post request GenerateComponent Hm Hp) Ha).
  rewrite (generate_component_body_valid request k _ button_body
             (UIComponent.mk BUTTON [] None None) Hb eq_refl).
  simpl fst. simpl snd. split; [reflexivity|]. split; [reflexivity|].
  unfold logged, after_admission. simpl log. rewrite <- app_assoc. reflexivity.
Qed.

Lemma C1_witness :
  fst (handle button_request 0%Q fresh_server) = internal_error_response /\
  status (fst (handle button_request 0%Q fresh_server)) = 500 /\
  log (snd (handle button_request 0%Q fresh_server)) =
    log fresh_server ++
      [(INFO, "[UI] Generating component: ComponentType.BUTTON");
       (ERROR, "[Error] Component generation failed: Object of type ComponentType is not JSON serializable")].
Proof.
  apply (C1_button_request_is_answered_500 fresh_server button_request 0%Q "test_key").
  - reflexivity.
  - reflexivity.
  - split; [reflexivity|]. split; [discriminate|]. vm_compute. reflexivity.
  - reflexivity.
Defined.

(** C4, as the code has it.  Routing comes first: it is the router that
    calls the handler.  For a request routed to one of the three handlers
    whose [X-API-Key] header is absent or empty the response is 401 with
    reason "API key required", and the server is left exactly as it was:
    the rate limiter is not consulted, nothing is logged, the body is not
    read.  A request that matches no route is answered by the router
    (404 or 405) whatever its headers. *)
Theorem C4_missing_key_is_unauthorized_once_routed
    (s : Server.t) (request : Request) (now : Q) :
  missing_api_key request ->
  (forall ep, resolve request = inl ep ->
     handle request now s = (error_response HTTPUnauthorized "API key required", s) /\
     status (fst (handle request now s)) = 401 /\
     reason (fst (handle request now s)) = "API key required") /\
  (forall c, resolve request = inr c ->
     handle request now s = (error_response c (default_reason c), s)).
Proof.
  intros Hk. split.
  - intros ep Hr.
    assert (H : handle request now s =
                (error_response HTTPUnauthorized "API key required", s)).
    { unfold handle. rewrite Hr, handler_unfold. unfold try_body.
      rewrite except_Exception_bind, (validate_request_missing _ _ _ Hk). reflexivity. }
    rewrite H. auto.
  - intros c Hr. unfold handle. rewrite Hr. reflexivity.
Qed.

Lemma C4_witness :
  (forall ep, resolve keyless_request = inl ep ->
     handle keyless_request 0%Q fresh_server =
       (error_response HTTPUnauthorized "API key required", fresh_server) /\
     status (fst (handle keyless_request 0%Q fresh_server)) = 401 /\
     reason (fst (handle keyless_request 0%Q fresh_server)) = "API key required") /\
  (forall c, resolve keyless_request = inr c ->
     handle keyless_request 0%Q fresh_server =
       (error_response c (default_reason c), fresh_server)).
Proof.
  apply (C4_missing_key_is_unauthorized_once_routed fresh_server keyless_request 0%Q).
  left. reflexivity.
Defined.

(** C4 as stated fails: a request without key to an unknown path is
    answered 404, not 401. *)
Lemma C4_counterexample :
  ~ (forall (s : Server.t) (request : Request) (now : Q),
       missing_api_key request -> status (fst (handle request now s)) = 401).
Proof.
  intros H.
  specialize (H fresh_server keyless_unknown_request 0%Q (or_introl eq_refl)).
  vm_compute in H. discriminate H.
Qed.

(** C10. A request [POST /detect_bugs] that passes the key check and the
    limiter and whose JSON body is an object with the keys [code] and
    [context], of whatever values, is answered 200 with the envelope
    [{"status": "success", "issues": []}]. *)
Theorem C10_detect_bugs_always_reports_no_issues
    (s : Server.t) (request : Request) (now : Q) (k : string) (d : list (string * json)) :
  method request = "POST" ->
  path request = "/detect_bugs" ->
  admitted_with s request now k ->
  json_body request = Ok (JObject d) ->
  dict_has d "code" = true ->
  dict_has d "context" = true ->
  fst (handle request now s) = mkResponse 200 "OK" (JsonBody no_issues_envelope).
Proof.
  intros Hm Hp Ha Hb Hc Hx.
  rewrite (handle_admitted s request now k DetectBugs
             (resolve_post request DetectBugs Hm Hp) Ha).
  rewrite (detect_bugs_body_object request k _ d Hb).
  unfold has_code_and_context. rewrite Hc, Hx. reflexivity.
Qed.

Lemma C10_witness :
  fst (handle untyped_bugs_request 0%Q fresh_server) =
  mkResponse 200 "OK" (JsonBody no_issues_envelope).
Proof.
  apply (C10_detect_bugs_always_reports_no_issues fresh_server untyped_bugs_request 0%Q
           "test_key" [("code", JInt 5); ("context", JList [])]).
  - reflexivity.
  - reflexivity.
  - split; [reflexivity|]. split; [discriminate|]. vm_compute. reflexivity.
  - reflexivity.
  - reflexivity.
  - reflexivity.
Defined.

End HandlerClaims.

Section ValidationClaims.

Import Server.



(** What the refusal of an invalid model comes to: the text of the
    [ValidationError] spans several lines, building
    [web.HTTPBadRequest] with it raises [ValueError], and the answer is
    the generic 500 with one ERROR record, for a [type] outside the enum
    as for a body without the required fields. *)
Example invalid_models_are_answered_500 :
  handle (mkRequest "POST" "/generate_component" [("X-API-Key", "test_key")]
            (Ok (JObject [("type", JStr "not_a_type"); ("props", JObject [])])))
         0%Q fresh_server =
    (internal_error_response,
     logged (after_admission fresh_server "test_key" 0%Q) ERROR
       "[Error] Component generation failed: Reason cannot contain \n") /\
  fst (handle (mkRequest "POST" "/generate_component" [("X-API-Key", "test_key")]
                 (Ok (JObject [("invalid", JStr "data")]))) 0%Q fresh_server) =
    internal_error_response /\
  fst (handle (mkRequest "POST" "/apply_pattern" [("X-API-Key", "test_key")]
                 (Ok (JObject [("context", JObject [])]))) 0%Q fresh_server) =
    internal_error_response /\
  validation_message "UIComponent" [("type", "value is not a valid enumeration member")] =
    "1 validation error for UIComponent" +:+ newline +:+ "type" +:+ newline +:+
    "  value is not a valid enumeration member".
Proof. repeat split; vm_compute; reflexivity. Qed.


(** A body that is valid JSON but not an object is outside the theorem
    above: a list makes [/generate_component] fail with a [TypeError]
    (500), and [/detect_bugs] takes the string ["code context"] for a
    container of both keys (200). *)
Example non_object_bodies :
  status (fst (handle (mkRequest "POST" "/generate_component" [("X-API-Key", "k")]
                         (Ok (JList []))) 0%Q fresh_server)) = 500 /\
  status (fst (handle (mkRequest "POST" "/detect_bugs" [("X-API-Key", "k")]
                         (Ok (JStr "code context"))) 0%Q fresh_server)) = 200 /\
  status (fst (handle (mkRequest "POST" "/detect_bugs" [("X-API-Key", "k")]
                         (Ok (JInt 7))) 0%Q fresh_server)) = 500.
Proof. repeat split; vm_compute; reflexivity. Qed.

(** C9. Whenever the statements of a handler raise an exception that is
    not a [web.HTTPException], the response is the one fixed 500 response,
    reason "Internal server error occurred": it does not depend on the
    exception; the detail [str(e)] goes to the log, in one ERROR record,
    and nowhere else. *)
Theorem C9_internal_fault_is_answered_by_the_generic_500
    (ep : endpoint) (request : Request) (now : Q) (s s1 : Server.t) (e : exn) :
  resolve request = inl ep ->
  try_body ep request now s = (Raise e, s1) ->
  is_HTTPException e = false ->
  handle request now s =
    (internal_error_response, logged s1 ERROR (EventLoop.label ep +:+ exn_str e)) /\
  status internal_error_response = 500 /\
  reason internal_error_response = "Internal server error occurred" /\
  body internal_error_response = TextBody "500: Internal server error occurred".
Proof.
  intros Hr Ht He. split; [|repeat split].
  unfold handle. rewrite Hr, handler_unfold.
  rewrite (except_Exception_fault _ _ _ _ _ Ht He). reflexivity.
Qed.

Lemma C9_witness :
  handle broken_read_request 0%Q fresh_server =
    (internal_error_response,
     logged (after_admission fresh_server "test_key" 0%Q) ERROR
       (EventLoop.label DetectBugs +:+
        exn_str (OtherException "ConnectionResetError" "peer 10.0.0.7 reset the connection"))) /\
  status internal_error_response = 500 /\
  reason internal_error_response = "Internal server error occurred" /\
  body internal_error_response = TextBody "500: Internal server error occurred".
Proof.
  apply (C9_internal_fault_is_answered_by_the_generic_500 DetectBugs broken_read_request 0%Q
           fresh_server (after_admission fresh_server "test_key" 0%Q)
           (OtherException "ConnectionResetError" "peer 10.0.0.7 reset the connection")).
  - reflexivity.
  - vm_compute. reflexivity.
  - reflexivity.
Defined.

End ValidationClaims.

(** ** Requests in flight *)

Section LiveTimestamps.

Import RateLimiter.

Lemma live_le_length (start : Q) (w : list Q) : (live start w <= length w)%nat.
Proof. apply List.filter_length_le. Qed.

Lemma live_app (start : Q) (w1 w2 : list Q) :
  live start (w1 ++ w2) = (live start w1 + live start w2)%nat.
Proof. unfold live. rewrite List.filter_app, length_app. reflexivity. Qed.

(** Pruning at a clock reading of the span keeps every timestamp that is
    not older than the start of the span. *)
Lemma live_prune (start now : Q) (w : list Q) :
  (now < start + 60)%Q -> live start (prune (now - 60) w) = live start w.
Proof.
  intros Hnow. unfold live, prune.
  induction w as [|t w IH]; [reflexivity|].
  simpl. destruct (Qle_bool start t) eqn:Hs.
  - assert (Hk : Qgtb t (now - 60) = true).
    { apply Qgtb_true. apply Qle_bool_iff in Hs. lra. }
    rewrite Hk. simpl. rewrite Hs. simpl. rewrite IH. reflexivity.
  - destruct (Qgtb t (now - 60)); simpl; [rewrite Hs|]; exact IH.
Qed.

Lemma is_rate_limited_live (start now : Q) (self : t) (k : string) :
  (start <= now /\ now < start + 60)%Q ->
  live start (window (snd (is_rate_limited self k now)) k) =
    (live start (window self k) + (if fst (is_rate_limited self k now) then 0 else 1))%nat /\
  (fst (is_rate_limited self k now) = false ->
     Z.of_nat (live start (window self k)) < requests_per_minute self).
Proof.
  intros [Hlo Hhi]. split.
  - rewrite is_rate_limited_window, live_app, live_prune by exact Hhi.
    destruct (fst (is_rate_limited self k now)); [reflexivity|].
    unfold live. simpl.
    apply Qle_bool_iff in Hlo. rewrite Hlo. reflexivity.
  - intros Hadm. rewrite is_rate_limited_fst, Z.geb_leb in Hadm. apply Z.leb_gt in Hadm.
    pose proof (live_le_length start (prune (now - 60) (window self k))) as Hle.
    rewrite live_prune in Hle by exact Hhi. lia.
Qed.

End LiveTimestamps.

Section LimiterUntouched.

Import Server.
Local Open Scope handler_scope.

Lemma keeps_ret {A : Type} (a : A) : keeps_limiter (ret a).
Proof. intros s. reflexivity. Qed.

Lemma keeps_raise {A : Type} (e : exn) : keeps_limiter (@raise A e).
Proof. intros s. reflexivity. Qed.

Lemma keeps_lift {A : Type} (r : result A) : keeps_limiter (lift r).
Proof. intros s. reflexivity. Qed.

Lemma keeps_logger (lvl : level) (msg : string) : keeps_limiter (logger lvl msg).
Proof. intros s. reflexivity. Qed.

Lemma keeps_bind {A B : Type} (m : M A) (k : A -> M B) :
  keeps_limiter m -> (forall a, keeps_limiter (k a)) -> keeps_limiter (bind m k).
Proof.
  intros Hm Hk s. unfold bind. specialize (Hm s).
  destruct (m s) as [[a|e] s1]; simpl in *.
  - rewrite Hk. exact Hm.
  - exact Hm.
Qed.

Lemma keeps_except_ValueError {A : Type} (m : M A) (h : exn -> M A) :
  keeps_limiter m -> (forall e, keeps_limiter (h e)) -> keeps_limiter (except_ValueError m h).
Proof.
  intros Hm Hh s. unfold except_ValueError. specialize (Hm s).
  destruct (m s) as [[a|[]] s1]; simpl in *; try exact Hm.
  rewrite Hh. exact Hm.
Qed.

Lemma keeps_except_Exception {A : Type} (l : string) (m : M A) :
  keeps_limiter m -> keeps_limiter (except_Exception l m).
Proof.
  intros Hm s. unfold except_Exception. specialize (Hm s).
  destruct (m s) as [[a|e] s1]; simpl in *; [exact Hm|].
  destruct (is_HTTPException e); exact Hm.
Qed.

Lemma keeps_json_response (data : pyval) : keeps_limiter (json_response data).
Proof.
  unfold json_response. destruct (to_json data); [apply keeps_ret|apply keeps_raise].
Qed.

Lemma keeps_if {A : Type} (b : bool) (m1 m2 : M A) :
  keeps_limiter m1 -> keeps_limiter m2 -> keeps_limiter (if b then m1 else m2).
Proof. destruct b; auto. Qed.

(** What follows [validate_request] in a handler never touches the rate
    limiter. *)
Lemma body_keeps_limiter (ep : endpoint) (request : Request) (k : string) :
  keeps_limiter (except_Exception (EventLoop.label ep) (EventLoop.body_of ep request k)).
Proof.
  apply keeps_except_Exception.
  destruct ep; simpl EventLoop.body_of;
    unfold generate_component_body, apply_pattern_body, detect_bugs_body;
    repeat (first [ apply keeps_bind; [|intros ?]
                  | apply keeps_except_ValueError; [|intros ?]
                  | apply keeps_if
                  | apply keeps_ret | apply keeps_raise | apply keeps_lift
                  | apply keeps_logger | apply keeps_json_response ]).
Qed.

(** The start of a handler, up to [await request.json()]: no key, a
    limited key, or an admitted key. *)
Lemma start_cases (l : string) (request : Request) (now : Q) (s : Server.t) :
  except_Exception l (validate_request request now) s =
    (Raise (HTTPException HTTPUnauthorized "API key required"), s) \/
  exists k,
    rate_limiter (snd (except_Exception l (validate_request request now) s)) =
      snd (RateLimiter.is_rate_limited (rate_limiter s) k now) /\
    (fst (except_Exception l (validate_request request now) s) = Ok k /\
     fst (RateLimiter.is_rate_limited (rate_limiter s) k now) = false
     \/
     fst (except_Exception l (validate_request request now) s) =
       Raise (HTTPException HTTPTooManyRequests "Rate limit exceeded. Please try again later.") /\
     fst (RateLimiter.is_rate_limited (rate_limiter s) k now) = true).
Proof.
  destruct (headers_get (headers request) "X-API-Key") as [k|] eqn:Hk.
  - destruct (String.eqb_spec k "") as [->|Hne].
    + left. apply except_Exception_http. apply validate_request_missing. right. exact Hk.
    + right. exists k.
      destruct (fst (RateLimiter.is_rate_limited (rate_limiter s) k now)) eqn:Hl.
      * rewrite (except_Exception_http _ _ _ _ _ _
                   (validate_request_limited request now s k Hk Hne Hl)).
        split; [reflexivity|]. right. split; reflexivity.
      * rewrite (except_Exception_ok _ _ _ _ _
                   (validate_request_admitted request now s k (conj Hk (conj Hne Hl)))).
        split; [reflexivity|]. left. split; reflexivity.
  - left. apply except_Exception_http. apply validate_request_missing. left. exact Hk.
Qed.

End LimiterUntouched.

Section EventLoopClaims.

Import Server EventLoop.

Variables (start : Q) (k : string).

(** One step of the loop at a clock reading of the span: the count of
    live timestamps of [k] grows by one when the step admits [k], which
    needs the count to be below the limit, and stays as it is otherwise. *)
Lemma step_live (i : nat) (now : Q) (l : EventLoop.t) :
  (start <= now /\ now < start + 60)%Q ->
  RateLimiter.requests_per_minute (rate_limiter (server (fst (step i now l)))) =
    RateLimiter.requests_per_minute (rate_limiter (server l)) /\
  live_for start k (server (fst (step i now l))) =
    (live_for start k (server l) + admitted k (match snd (step i now l) with
                                               | Some r => [r]
                                               | None => []
                                               end))%nat /\
  (admitted k (match snd (step i now l) with Some r => [r] | None => [] end) = 1%nat ->
   Z.of_nat (live_for start k (server l)) <
     RateLimiter.requests_per_minute (rate_limiter (server l))).
Proof.
  intros Hnow. unfold step, live_for, admitted.
  destruct (tasks l !! i) as [[ep request|ep request key|resp]|] eqn:Ht.
  - destruct (start_cases (label ep) request now (server l)) as [H|(k' & Hrl & H)].
    + rewrite H. simpl. split; [reflexivity|]. split; [lia|discriminate].
    + destruct (except_Exception (label ep) (validate_request request now) (server l))
        as [r s1] eqn:Hs. simpl in Hrl. simpl fst in H.
      destruct (is_rate_limited_live start now (rate_limiter (server l)) k' Hnow)
        as [Hlive Hlt].
      destruct H as [[-> Hadm]|[-> Hlim]]; simpl; rewrite Hrl, is_rate_limited_rpm;
        (split; [reflexivity|]).
      * destruct (String.eqb_spec k' k) as [->|Hne].
        -- simpl. rewrite Hlive, Hadm. split; [reflexivity|]. intros _. apply Hlt, Hadm.
        -- simpl. rewrite is_rate_limited_other by congruence. split; [lia|discriminate].
      * destruct (String.eqb_spec k k') as [->|Hne].
        -- rewrite Hlive, Hlim. split; [lia|discriminate].
        -- rewrite is_rate_limited_other by exact Hne. split; [lia|discriminate].
  - pose proof (body_keeps_limiter ep request key (server l)) as Hkeep.
    destruct (except_Exception (label ep) (body_of ep request key) (server l)) as [r s1].
    simpl in *. rewrite Hkeep. split; [reflexivity|]. split; [lia|discriminate].
  - simpl. split; [reflexivity|]. split; [lia|discriminate].
  - simpl. split; [reflexivity|]. split; [lia|discriminate].
Qed.

Lemma run_cons (i : nat) (now : Q) (rest : list (nat * Q)) (l : EventLoop.t) :
  run ((i, now) :: rest) l =
  (fst (run rest (fst (step i now l))),
   match snd (step i now l) with Some r => [r] | None => [] end ++
   snd (run rest (fst (step i now l)))).
Proof.
  simpl. destruct (step i now l) as [l1 ev]. simpl.
  destruct (run rest l1) as [l2 evs]. destruct ev; reflexivity.
Qed.

Lemma admitted_app (evs1 evs2 : list (result string)) :
  admitted k (evs1 ++ evs2) = (admitted k evs1 + admitted k evs2)%nat.
Proof. unfold admitted. rewrite List.filter_app, length_app. reflexivity. Qed.

Lemma admitted_single (ev : option (result string)) :
  admitted k (match ev with Some r => [r] | None => [] end) = 0%nat \/
  admitted k (match ev with Some r => [r] | None => [] end) = 1%nat.
Proof.
  unfold admitted. destruct ev as [[k'|e]|]; simpl; auto.
  destruct (String.eqb k' k); simpl; auto.
Qed.

(** Along any schedule within the span, the admissions of [k] and the
    live timestamps it started with stay within the limit together. *)
Lemma run_admitted (schedule : list (nat * Q)) (l : EventLoop.t) :
  RateLimiter.in_span start (List.map snd schedule) ->
  Z.of_nat (admitted k (snd (run schedule l))) + Z.of_nat (live_for start k (server l)) <=
  Z.max (RateLimiter.requests_per_minute (rate_limiter (server l)))
        (Z.of_nat (live_for start k (server l))).
Proof.
  revert l. induction schedule as [|[i now] rest IH]; intros l Hspan.
  - simpl. unfold admitted. simpl. lia.
  - simpl List.map in Hspan. apply List.Forall_cons_iff in Hspan as [Hnow Hrest].
    rewrite run_cons. simpl snd. rewrite admitted_app.
    destruct (step_live i now l Hnow) as (Hrpm & Hlive & Hlt).
    specialize (IH (fst (step i now l)) Hrest). rewrite Hrpm, Hlive in IH.
    destruct (admitted_single (snd (step i now l))) as [H0|H1].
    + rewrite H0 in *. lia.
    + specialize (Hlt H1). rewrite H1 in *. lia.
Qed.

End EventLoopClaims.

Section Concurrency.

Import Server EventLoop.

(** C3. Requests in flight at once, for any keys, any number of them, run
    by the event loop in any order and interleaved at their [await]s, with
    clock readings within one 60-second span: the number of
    [validate_request] calls that admit key [k] never exceeds the limit.
    The prune-count-append sequence of [is_rate_limited] holds no [await],
    so no other request runs in its middle. *)
Theorem C3_admissions_of_concurrent_requests_are_bounded
    (l : EventLoop.t) (schedule : list (nat * Q)) (start : Q) (k : string) :
  0 <= RateLimiter.requests_per_minute (rate_limiter (server l)) ->
  RateLimiter.in_span start (List.map snd schedule) ->
  Z.of_nat (admitted k (snd (run schedule l))) <=
  RateLimiter.requests_per_minute (rate_limiter (server l)).
Proof.
  intros HL Hspan. pose proof (run_admitted start k schedule l Hspan). lia.
Qed.

Lemma C3_witness :
  Z.of_nat (admitted "test_key" (snd (run interleaved_schedule three_in_flight))) <=
  RateLimiter.requests_per_minute (rate_limiter (server three_in_flight)).
Proof.
  apply (C3_admissions_of_concurrent_requests_are_bounded
           three_in_flight interleaved_schedule 0%Q "test_key").
  - simpl. lia.
  - repeat constructor; simpl; lra.
Defined.

(** The same run, evaluated: two requests are admitted, the third one is
    answered 429. *)
Example three_in_flight_run :
  snd (run interleaved_schedule three_in_flight) =
    [Ok "test_key"; Ok "test_key";
     Raise (HTTPException HTTPTooManyRequests "Rate limit exceeded. Please try again later.")] /\
  List.map (fun c => match c with Returned r => status r | _ => 0 end)
    (tasks (fst (run interleaved_schedule three_in_flight))) = [500; 429; 200].
Proof. split; vm_compute; reflexivity. Qed.

(** A handler run alone is its two pieces run one after the other. *)
Lemma handler_is_start_then_rest (ep : endpoint) (request : Request) (now : Q) (s : Server.t) :
  handler ep request now s =
  match except_Exception (label ep) (validate_request request now) s with
  | (Ok api_key, s1) => except_Exception (label ep) (body_of ep request api_key) s1
  | (Raise e, s1) => (Raise e, s1)
  end.
Proof.
  rewrite handler_unfold. unfold try_body. rewrite except_Exception_bind.
  destruct (headers_get (headers request) "X-API-Key") as [key|] eqn:Hk.
  - destruct (String.eqb_spec key "") as [->|Hne].
    + assert (Hm : missing_api_key request) by (right; exact Hk).
      rewrite (except_Exception_http _ _ _ _ _ _ (validate_request_missing request now s Hm)).
      rewrite (validate_request_missing request now s Hm). reflexivity.
    + destruct (fst (RateLimiter.is_rate_limited (rate_limiter s) key now)) eqn:Hl.
      * rewrite (except_Exception_http _ _ _ _ _ _
                   (validate_request_limited request now s key Hk Hne Hl)).
        rewrite (validate_request_limited request now s key Hk Hne Hl). reflexivity.
      * rewrite (except_Exception_ok _ _ _ _ _
                   (validate_request_admitted request now s key (conj Hk (conj Hne Hl)))).
        rewrite (validate_request_admitted request now s key (conj Hk (conj Hne Hl))).
        reflexivity.
  - assert (Hm : missing_api_key request) by (left; exact Hk).
    rewrite (except_Exception_http _ _ _ _ _ _ (validate_request_missing request now s Hm)).
    rewrite (validate_request_missing request now s Hm). reflexivity.
Qed.

End Concurrency.

(** ** Every 500 answer is the same answer *)

Section InternalErrors.

Import Server EventLoop.

Lemma resolve_error (request : Request) (c : HTTPError) :
  resolve request = inr c -> c = HTTPNotFound \/ c = HTTPMethodNotAllowed.
Proof.
  unfold resolve. destruct (List.find _ setup_routes); [discriminate|].
  destruct (existsb _ setup_routes); intros H; inversion H; auto.
Qed.

Lemma model_constructors_raise (data : json) :
  (forall c r, UIComponent.new data <> Raise (HTTPException c r)) /\
  (forall c r, DesignPattern.new data <> Raise (HTTPException c r)).
Proof.
  split; intros c r.
  - destruct data as [| | | | | |d]; try discriminate.
    pose proof (UIComponent_new_spec d) as H. intros E. rewrite E in H. exact H.
  - destruct data as [| | | | | |d]; try discriminate.
    pose proof (DesignPattern_new_spec d) as H. intros E. rewrite E in H. exact H.
Qed.

(** The outcomes of a handler after admission: a 200 response, an HTTP
    error other than 500, or the generic 500. *)
Lemma body_outcomes (ep : endpoint) (request : Request) (k : string) (s1 : Server.t) :
  (forall r, json_body request <> Raise (HTTPException HTTPInternalServerError r)) ->
  (exists resp, fst (except_Exception (label ep) (body_of ep request k) s1) = Ok resp /\
                status resp = 200) \/
  (exists c r, fst (except_Exception (label ep) (body_of ep request k) s1) =
                 Raise (HTTPException c r) /\ c <> HTTPInternalServerError) \/
  fst (except_Exception (label ep) (body_of ep request k) s1) =
    Raise (HTTPException HTTPInternalServerError "Internal server error occurred").
Proof.
  intros Hbody.
  destruct (json_body request) as [data|e] eqn:Hj.
  - destruct ep; simpl body_of.
    + destruct (UIComponent.new data) as [c|e] eqn:Hn.
      * rewrite (generate_component_body_valid request k s1 data c Hj Hn). auto.
      * destruct e as [c r|msg|msg|cls msg].
        -- exfalso. exact (proj1 (model_constructors_raise data) c r Hn).
        -- rewrite (generate_component_body_invalid request k s1 data msg Hj Hn
                      (UIComponent_new_message data msg Hn)).
           right. right. reflexivity.
        -- right. right.
           unfold except_Exception, generate_component_body, bind, except_ValueError, lift.
           rewrite Hj, Hn. reflexivity.
        -- right. right.
           unfold except_Exception, generate_component_body, bind, except_ValueError, lift.
           rewrite Hj, Hn. reflexivity.
    + destruct (DesignPattern.new data) as [p|e] eqn:Hn.
      * rewrite (apply_pattern_body_valid request k s1 data p Hj Hn).
        left. eexists. split; reflexivity.
      * destruct e as [c r|msg|msg|cls msg].
        -- exfalso. exact (proj2 (model_constructors_raise data) c r Hn).
        -- rewrite (apply_pattern_body_invalid request k s1 data msg Hj Hn
                      (DesignPattern_new_message data msg Hn)).
           right. right. reflexivity.
        -- right. right.
           unfold except_Exception, apply_pattern_body, bind, except_ValueError, lift.
           rewrite Hj, Hn. reflexivity.
        -- right. right.
           unfold except_Exception, apply_pattern_body, bind, except_ValueError, lift.
           rewrite Hj, Hn. reflexivity.
    + unfold except_Exception, detect_bugs_body, bind, except_ValueError, lift.
      rewrite Hj. unfold contains.
      destruct data as [| | | |str|items|d]; try (right; right; reflexivity).
      * destruct (is_substring "code" str); [|right; left; do 2 eexists; split; [reflexivity|discriminate]].
        destruct (is_substring "context" str); [left; eexists; split; reflexivity|].
        right; left; do 2 eexists; split; [reflexivity|discriminate].
      * destruct (existsb _ items); [|right; left; do 2 eexists; split; [reflexivity|discriminate]].
        destruct (existsb _ items); [left; eexists; split; reflexivity|].
        right; left; do 2 eexists; split; [reflexivity|discriminate].
      * destruct (dict_has d "code"); [|right; left; do 2 eexists; split; [reflexivity|discriminate]].
        destruct (dict_has d "context"); [left; eexists; split; reflexivity|].
        right; left; do 2 eexists; split; [reflexivity|discriminate].
  - destruct e as [c r|msg|msg|cls msg].
    + right. left. exists c, r. split.
      * destruct ep; simpl body_of;
          unfold except_Exception, generate_component_body, apply_pattern_body,
                 detect_bugs_body, bind, except_ValueError, lift;
          rewrite Hj; reflexivity.
      * intros ->. exact (Hbody r eq_refl).
    + right. left. exists HTTPBadRequest, "Invalid JSON payload". split; [|discriminate].
      destruct ep; simpl body_of;
        unfold except_Exception, generate_component_body, apply_pattern_body,
               detect_bugs_body, bind, except_ValueError, lift;
        rewrite Hj; reflexivity.
    + right. right.
      destruct ep; simpl body_of;
        unfold except_Exception, generate_component_body, apply_pattern_body,
               detect_bugs_body, bind, except_ValueError, lift;
        rewrite Hj; reflexivity.
    + right. right.
      destruct ep; simpl body_of;
        unfold except_Exception, generate_component_body, apply_pattern_body,
               detect_bugs_body, bind, except_ValueError, lift;
        rewrite Hj; reflexivity.
Qed.

(** Unless reading the body itself raised an HTTP 500, a response with
    status 500 is the generic one: two requests answered 500 receive the
    same response. *)
Lemma every_500_is_generic (request : Request) (now : Q) (s : Server.t) :
  (forall r, json_body request <> Raise (HTTPException HTTPInternalServerError r)) ->
  status (fst (handle request now s)) = 500 ->
  fst (handle request now s) = internal_error_response.
Proof.
  intros Hbody. unfold handle.
  destruct (resolve request) as [ep|c] eqn:Hr.
  - rewrite handler_is_start_then_rest.
    destruct (start_cases (label ep) request now s) as [H|(k & _ & [[H _]|[H _]])].
    + rewrite H. simpl. discriminate.
    + destruct (except_Exception (label ep) (validate_request request now) s) as [r s1].
      simpl in H. subst r.
      destruct (body_outcomes ep request k s1 Hbody) as [(resp & H & Hs)|[(c & r & H & Hc)|H]];
        destruct (except_Exception (label ep) (body_of ep request k) s1) as [out s2];
        simpl in H; subst out; simpl.
      * rewrite Hs. discriminate.
      * destruct c; try discriminate. congruence.
      * reflexivity.
    + destruct (except_Exception (label ep) (validate_request request now) s) as [r s1].
      simpl in H. subst r. simpl. discriminate.
  - simpl. destruct (resolve_error request c Hr) as [-> | ->]; discriminate.
Qed.

End InternalErrors.

Section ServedAlone.

Import Server EventLoop.

Lemma step_start (ep : endpoint) (request : Request) (now : Q) (s : Server.t) :
  step 0 now (mk s [NotStarted ep request]) =
  match except_Exception (label ep) (validate_request request now) s with
  | (Ok api_key, s1) => (mk s1 [AwaitingBody ep request api_key], Some (Ok api_key))
  | (Raise e, s1) => (mk s1 [Returned (respond (Raise e))], Some (Raise e))
  end.
Proof.
  unfold step. simpl tasks. simpl server. simpl lookup. cbv beta iota.
  destruct (except_Exception _ _ _) as [[key|e] s1]; reflexivity.
Qed.

Lemma step_resume (ep : endpoint) (request : Request) (key : string) (now : Q) (s : Server.t) :
  step 0 now (mk s [AwaitingBody ep request key]) =
  (mk (snd (except_Exception (label ep) (body_of ep request key) s))
      [Returned (respond (fst (except_Exception (label ep) (body_of ep request key) s)))],
   None).
Proof.
  unfold step. simpl tasks. simpl server. simpl lookup. cbv beta iota.
  destruct (except_Exception _ _ _) as [r s1]. reflexivity.
Qed.

(** A request that the loop runs without any other in between is served
    as [handle] serves it. *)
Lemma served_alone (ep : endpoint) (request : Request) (now now' : Q) (s : Server.t) :
  resolve request = inl ep ->
  tasks (fst (run [(0%nat, now); (0%nat, now')] (mk s [NotStarted ep request]))) =
    [Returned (fst (handle request now s))] /\
  server (fst (run [(0%nat, now); (0%nat, now')] (mk s [NotStarted ep request]))) =
    snd (handle request now s).
Proof.
  intros Hr. unfold handle. rewrite Hr, handler_is_start_then_rest.
  rewrite run_cons, step_start.
  destruct (except_Exception (label ep) (validate_request request now) s) as [[key|e] s1].
  - cbn [fst snd]. rewrite run_cons, step_resume. cbn [fst snd run tasks server].
    destruct (except_Exception (label ep) (body_of ep request key) s1) as [r s2].
    auto.
  - cbn [fst snd]. rewrite run_cons. cbn. auto.
Qed.

End ServedAlone.

(** * Further properties of the code *)

(** ** The rate limiter across keys and over time *)

Section RateLimiterKeys.

Import RateLimiter.

Lemma is_rate_limited_ext (s1 s2 : t) (k : string) (now : Q) :
  window s1 k = window s2 k ->
  requests_per_minute s1 = requests_per_minute s2 ->
  fst (is_rate_limited s1 k now) = fst (is_rate_limited s2 k now) /\
  window (snd (is_rate_limited s1 k now)) k = window (snd (is_rate_limited s2 k now)) k.
Proof.
  intros Hw Hr. assert (Hf : fst (is_rate_limited s1 k now) = fst (is_rate_limited s2 k now)).
  { rewrite !is_rate_limited_fst, Hw, Hr. reflexivity. }
  split; [exact Hf|]. rewrite !is_rate_limited_window, Hw, Hf. reflexivity.
Qed.

Lemma calls_ext (nows : list Q) (s1 s2 : t) (k : string) :
  window s1 k = window s2 k ->
  requests_per_minute s1 = requests_per_minute s2 ->
  fst (calls s1 k nows) = fst (calls s2 k nows) /\
  window (snd (calls s1 k nows)) k = window (snd (calls s2 k nows)) k.
Proof.
  revert s1 s2. induction nows as [|now rest IH]; intros s1 s2 Hw Hr.
  - simpl. auto.
  - rewrite !calls_cons. cbn [fst snd].
    destruct (is_rate_limited_ext s1 s2 k now Hw Hr) as [Hf Hw'].
    destruct (IH (snd (is_rate_limited s1 k now)) (snd (is_rate_limited s2 k now)) Hw')
      as [IH1 IH2].
    { rewrite !is_rate_limited_rpm. exact Hr. }
    rewrite Hf, IH1. auto.
Qed.

(** X1. Keys do not interfere: in any sequence of calls for any keys, the
    results of the calls for [k] and the window [k] ends with are those
    of the calls for [k] made alone, in the same order at the same clock
    readings. *)
Theorem X1_keys_are_limited_independently
    (self : t) (cs : list (string * Q)) (k : string) :
  results_for k cs (fst (trace self cs)) = fst (calls self k (readings_for k cs)) /\
  window (snd (trace self cs)) k = window (snd (calls self k (readings_for k cs))) k.
Proof.
  revert self. induction cs as [|[k' now] rest IH]; intros self.
  - simpl. auto.
  - rewrite trace_cons. cbn [fst snd results_for]. unfold readings_for.
    cbn [List.filter fst]. fold (readings_for k rest).
    destruct (IH (snd (is_rate_limited self k' now))) as [IH1 IH2].
    destruct (String.eqb_spec k' k) as [->|Hne].
    + cbn [List.map snd]. fold (readings_for k rest).
      rewrite calls_cons. cbn [fst snd]. rewrite IH1, IH2. auto.
    + fold (readings_for k rest).
      destruct (calls_ext (readings_for k rest) (snd (is_rate_limited self k' now)) self k)
        as [E1 E2].
      { apply is_rate_limited_other. congruence. }
      { apply is_rate_limited_rpm. }
      rewrite IH1, IH2, E1, E2. auto.
Qed.

Lemma is_rate_limited_dom (self : t) (k : string) (now : Q) :
  dom (requests (snd (is_rate_limited self k now))) = {[k]} ∪ dom (requests self).
Proof.
  unfold is_rate_limited. cbv zeta. destruct (_ >=? _); simpl.
  - apply dom_insert_L.
  - rewrite !dom_insert_L, (assoc_L (∪)), (idemp_L (∪)). reflexivity.
Qed.

(** X10. No key is ever evicted: after any sequence of calls the map still
    holds every key it held before and every key a call was made for,
    whether the call was admitted or limited and however old its
    timestamps are by now. *)
Theorem X10_keys_are_never_evicted (self : t) (cs : list (string * Q)) :
  dom (requests self) ⊆ dom (requests (snd (trace self cs))) /\
  Forall (fun c => fst c ∈ dom (requests (snd (trace self cs)))) cs.
Proof.
  revert self. induction cs as [|[k now] rest IH]; intros self.
  - simpl. split; [reflexivity|constructor].
  - rewrite trace_cons. cbn [snd].
    destruct (IH (snd (is_rate_limited self k now))) as [IH1 IH2].
    rewrite is_rate_limited_dom in IH1.
    split; [transitivity ({[k]} ∪ dom (requests self)); [apply union_subseteq_r|exact IH1]|].
    constructor; [|exact IH2].
    cbn [fst]. apply IH1, elem_of_union_l, elem_of_singleton. reflexivity.
Qed.

Lemma Forall_filter_keep {A : Type} (P : A -> Prop) (f : A -> bool) (l : list A) :
  Forall P l -> Forall P (List.filter f l).
Proof.
  induction 1 as [|x l Hx _ IH]; simpl; [constructor|].
  destruct (f x); [constructor; assumption|assumption].
Qed.

Lemma ascending_filter (f : Q -> bool) (w : list Q) :
  ascending w -> ascending (List.filter f w).
Proof.
  induction w as [|t w IH]; simpl; [auto|].
  intros [Hall Hasc]. destruct (f t); simpl.
  - split; [apply Forall_filter_keep, Hall|apply IH, Hasc].
  - apply IH, Hasc.
Qed.

Lemma ascending_snoc (w : list Q) (now : Q) :
  ascending w -> Forall (fun t => (t <= now)%Q) w -> ascending (w ++ [now]).
Proof.
  induction w as [|t w IH]; simpl.
  - intros _ _. split; [constructor|exact I].
  - intros [Hall Hasc] Hle. apply List.Forall_cons_iff in Hle as [Ht Hle].
    split; [|apply IH; assumption].
    apply List.Forall_app. split; [exact Hall|]. constructor; [exact Ht|constructor].
Qed.

Lemma is_rate_limited_ordered (self : t) (k : string) (last now : Q) :
  (last <= now)%Q ->
  (forall k', ascending (window self k') /\
              Forall (fun t => (t <= last)%Q) (window self k')) ->
  forall k', ascending (window (snd (is_rate_limited self k now)) k') /\
             Forall (fun t => (t <= now)%Q) (window (snd (is_rate_limited self k now)) k').
Proof.
  intros Hnow Hord k'. destruct (Hord k') as [Hasc Hle].
  assert (Hle' : Forall (fun t => (t <= now)%Q) (window self k')).
  { eapply List.Forall_impl; [|exact Hle]. intros t Ht. simpl in Ht. lra. }
  destruct (String.eqb_spec k' k) as [->|Hne].
  - rewrite is_rate_limited_window.
    assert (Hk : ascending (prune (now - 60) (window self k))) by (apply ascending_filter, Hasc).
    assert (Hl : Forall (fun t => (t <= now)%Q) (prune (now - 60) (window self k)))
      by (apply Forall_filter_keep, Hle').
    destruct (fst (is_rate_limited self k now)).
    + rewrite app_nil_r. auto.
    + split; [apply ascending_snoc; assumption|].
      apply List.Forall_app. split; [exact Hl|]. constructor; [lra|constructor].
  - rewrite is_rate_limited_other by exact Hne. auto.
Qed.

(** X9. While the clock does not run backwards, every window stays in
    chronological order, oldest timestamp first, and holds no timestamp
    later than the last clock reading. *)
Theorem X9_windows_stay_chronological
    (self : t) (last : Q) (cs : list (string * Q)) :
  (forall k, ascending (window self k) /\ Forall (fun t => (t <= last)%Q) (window self k)) ->
  clock_monotone last cs ->
  forall k, ascending (window (snd (trace self cs)) k).
Proof.
  revert self last. induction cs as [|[k' now] rest IH]; intros self last Hord Hmono k.
  - simpl. apply Hord.
  - rewrite trace_cons. cbn [snd]. destruct Hmono as [Hnow Hrest].
    apply (IH (snd (is_rate_limited self k' now)) now); [|exact Hrest].
    apply is_rate_limited_ordered with last; assumption.
Qed.

Lemma X9_witness :
  ascending (window (snd (trace (init 3)
    [("a", 0%Q); ("b", 5%Q); ("a", 5%Q); ("a", 70%Q); ("a", 71%Q)])) "a").
Proof.
  apply (X9_windows_stay_chronological (init 3) 0%Q
           [("a", 0%Q); ("b", 5%Q); ("a", 5%Q); ("a", 70%Q); ("a", 71%Q)]).
  - intros k. rewrite window_init. simpl. split; [exact I|constructor].
  - simpl. repeat split; lra.
Defined.

(** Without that proviso the order can break: a reading that lies before
    a recorded one is appended after it. *)
Example clock_running_backwards :
  window (snd (trace (init 3) [("a", 10%Q); ("a", 4%Q)])) "a" = [10%Q; 4%Q].
Proof. vm_compute. reflexivity. Qed.

End RateLimiterKeys.

(** ** The handlers: rejected, malformed and unusual requests *)

Section HandlerOutcomes.

Import Server.

Lemma handle_limited (s : Server.t) (request : Request) (now : Q) (k : string) (ep : endpoint) :
  resolve request = inl ep ->
  headers_get (headers request) "X-API-Key" = Some k -> k <> "" ->
  fst (RateLimiter.is_rate_limited (rate_limiter s) k now) = true ->
  handle request now s =
  (error_response HTTPTooManyRequests "Rate limit exceeded. Please try again later.",
   after_admission s k now).
Proof.
  intros Hr Hk Hne Hl. unfold handle. rewrite Hr, handler_is_start_then_rest.
  rewrite (except_Exception_http _ _ _ _ _ _ (validate_request_limited request now s k Hk Hne Hl)).
  reflexivity.
Qed.

(** X2. A routed request with a non-empty key that the limiter refuses is
    answered 429 "Rate limit exceeded. Please try again later." whatever
    its body; the refused request is not recorded (the key's window is
    the pruned one, without [now]), and nothing is logged. *)
Theorem X2_limited_request_is_answered_429
    (s : Server.t) (request : Request) (now : Q) (k : string) (ep : endpoint) :
  resolve request = inl ep ->
  headers_get (headers request) "X-API-Key" = Some k -> k <> "" ->
  fst (RateLimiter.is_rate_limited (rate_limiter s) k now) = true ->
  status (fst (handle request now s)) = 429 /\
  reason (fst (handle request now s)) = "Rate limit exceeded. Please try again later." /\
  RateLimiter.window (rate_limiter (snd (handle request now s))) k =
    RateLimiter.prune (now - 60) (RateLimiter.window (rate_limiter s) k) /\
  log (snd (handle request now s)) = log s.
Proof.
  intros Hr Hk Hne Hl. rewrite (handle_limited s request now k ep Hr Hk Hne Hl).
  cbn [fst snd]. repeat split.
  unfold after_admission. cbn [rate_limiter].
  rewrite is_rate_limited_window, Hl. apply app_nil_r.
Qed.

Lemma X2_witness :
  status (fst (handle untyped_bugs_request 2%Q exhausted_server)) = 429 /\
  reason (fst (handle untyped_bugs_request 2%Q exhausted_server)) =
    "Rate limit exceeded. Please try again later." /\
  RateLimiter.window (rate_limiter (snd (handle untyped_bugs_request 2%Q exhausted_server)))
    "test_key" =
    RateLimiter.prune (2 - 60) (RateLimiter.window (rate_limiter exhausted_server) "test_key") /\
  log (snd (handle untyped_bugs_request 2%Q exhausted_server)) = log exhausted_server.
Proof.
  apply (X2_limited_request_is_answered_429 exhausted_server untyped_bugs_request 2%Q
           "test_key" DetectBugs).
  - reflexivity.
  - reflexivity.
  - discriminate.
  - vm_compute. reflexivity.
Defined.

Lemma body_malformed (ep : endpoint) (request : Request) (k msg : string) (s1 : Server.t) :
  json_body request = Raise (ValueError msg) ->
  except_Exception (EventLoop.label ep) (EventLoop.body_of ep request k) s1 =
  (Raise (HTTPException HTTPBadRequest "Invalid JSON payload"), s1).
Proof.
  intros Hj.
  destruct ep; cbn [EventLoop.body_of];
    unfold except_Exception, generate_component_body, apply_pattern_body,
           detect_bugs_body, bind, except_ValueError, lift;
    rewrite Hj; reflexivity.
Qed.

(** X3. A routed and admitted request whose body is not JSON (reading it
    raises [ValueError]) is answered 400 "Invalid JSON payload" by each of
    the three handlers; the parser's message is neither sent nor logged. *)
Theorem X3_malformed_json_is_answered_400
    (s : Server.t) (request : Request) (now : Q) (k msg : string) (ep : endpoint) :
  resolve request = inl ep ->
  admitted_with s request now k ->
  json_body request = Raise (ValueError msg) ->
  fst (handle request now s) = error_response HTTPBadRequest "Invalid JSON payload" /\
  status (fst (handle request now s)) = 400 /\
  log (snd (handle request now s)) = log s.
Proof.
  intros Hr Ha Hj. rewrite (handle_admitted s request now k ep Hr Ha).
  rewrite (body_malformed ep request k msg _ Hj). cbn [fst snd]. repeat split.
Qed.

Lemma X3_witness :
  fst (handle malformed_request 0%Q fresh_server) =
    error_response HTTPBadRequest "Invalid JSON payload" /\
  status (fst (handle malformed_request 0%Q fresh_server)) = 400 /\
  log (snd (handle malformed_request 0%Q fresh_server)) = log fresh_server.
Proof.
  apply (X3_malformed_json_is_answered_400 fresh_server malformed_request 0%Q "test_key"
           "Expecting value: line 1 column 1 (char 0)" ApplyPattern).
  - reflexivity.
  - split; [reflexivity|]. split; [discriminate|]. vm_compute. reflexivity.
  - reflexivity.
Defined.

(** X7. Admission is recorded before the body is looked at: a routed
    request that the limiter admits uses up one admission of its key,
    whatever its body and whatever the answer (200, 400 or 500). *)
Theorem X7_admission_is_spent_whatever_the_answer
    (s : Server.t) (request : Request) (now : Q) (k : string) (ep : endpoint) :
  resolve request = inl ep ->
  admitted_with s request now k ->
  rate_limiter (snd (handle request now s)) =
    snd (RateLimiter.is_rate_limited (rate_limiter s) k now) /\
  RateLimiter.window (rate_limiter (snd (handle request now s))) k =
    RateLimiter.prune (now - 60) (RateLimiter.window (rate_limiter s) k) ++ [now].
Proof.
  intros Hr Ha. rewrite (handle_admitted s request now k ep Hr Ha). cbn [snd].
  rewrite (body_keeps_limiter ep request k (after_admission s k now)).
  unfold after_admission. cbn [rate_limiter]. split; [reflexivity|].
  destruct Ha as (_ & _ & Hadm). rewrite is_rate_limited_window, Hadm. reflexivity.
Qed.

Lemma X7_witness :
  rate_limiter (snd (handle malformed_request 0%Q fresh_server)) =
    snd (RateLimiter.is_rate_limited (rate_limiter fresh_server) "test_key" 0%Q) /\
  RateLimiter.window (rate_limiter (snd (handle malformed_request 0%Q fresh_server))) "test_key" =
    RateLimiter.prune (0 - 60) (RateLimiter.window (rate_limiter fresh_server) "test_key") ++
    [0%Q].
Proof.
  apply (X7_admission_is_spent_whatever_the_answer fresh_server malformed_request 0%Q
           "test_key" ApplyPattern).
  - reflexivity.
  - split; [reflexivity|]. split; [discriminate|]. vm_compute. reflexivity.
Defined.

End HandlerOutcomes.

Section PatternEcho.

Import Server.

Lemma validate_list_str_items_strings (l : list json) :
  forallb spec_is_string l = true ->
  exists ss, validate_list_str_items l = Some ss /\ List.map JStr ss = l.
Proof.
  induction l as [|x l IH]; cbn [forallb validate_list_str_items].
  - intros _. exists []. split; reflexivity.
  - intros H. apply andb_true_iff in H as [Hx Hl].
    destruct (IH Hl) as (ss & Hss & Hmap).
    destruct x; try discriminate Hx. cbn [validate_str]. rewrite Hss.
    exists (s :: ss). split; [reflexivity|]. simpl. rewrite Hmap. reflexivity.
Qed.

(** X4. A well-formed pattern request is echoed: [/apply_pattern] answers
    200 with the envelope whose [pattern] holds the [pattern_type] and
    the [context] that were sent and the [constraints] that were sent, or
    the empty list when there were none; other keys of the body are
    dropped. *)
Theorem X4_apply_pattern_echoes_the_request
    (s : Server.t) (request : Request) (now : Q) (k : string)
    (d : list (string * json)) (pt : string) (cx : list (string * json)) :
  resolve request = inl ApplyPattern ->
  admitted_with s request now k ->
  json_body request = Ok (JObject d) ->
  dict_get d "pattern_type" = Some (JStr pt) ->
  dict_get d "context" = Some (JObject cx) ->
  spec_optional_field d "constraints" spec_list_of_strings = true ->
  fst (handle request now s) =
  mkResponse 200 "OK"
    (JsonBody (JObject
       [("status", JStr "success");
        ("pattern", JObject
           [("pattern_type", JStr pt);
            ("context", JObject cx);
            ("constraints",
             JList (match dict_get d "constraints" with
                    | Some (JList l) => l
                    | _ => []
                    end))])])).
Proof.
  intros Hr Ha Hj Hpt Hcx Hcs.
  rewrite (handle_admitted s request now k ApplyPattern Hr Ha).
  assert (Hnew : exists ss,
            DesignPattern.new (JObject d) = Ok (DesignPattern.mk pt cx ss) /\
            List.map JStr ss = match dict_get d "constraints" with
                               | Some (JList l) => l
                               | _ => []
                               end).
  { unfold DesignPattern.new, required, optional. rewrite Hpt, Hcx.
    cbn [validate_str validate_dict].
    unfold spec_optional_field in Hcs.
    destruct (dict_get d "constraints") as [v|].
    - destruct v; try discriminate Hcs. cbn [spec_list_of_strings] in Hcs.
      destruct (validate_list_str_items_strings l Hcs) as (ss & Hss & Hmap).
      exists ss. cbn [validate_list_str]. rewrite Hss. auto.
    - exists []. auto. }
  destruct Hnew as (ss & Hnew & Hmap).
  rewrite (apply_pattern_body_valid request k _ (JObject d) _ Hj Hnew).
  cbn [fst DesignPattern.pattern_type DesignPattern.context DesignPattern.constraints].
  rewrite Hmap. reflexivity.
Qed.

Lemma X4_witness :
  fst (handle card_pattern_request 0%Q fresh_server) =
  mkResponse 200 "OK"
    (JsonBody (JObject
       [("status", JStr "success");
        ("pattern", JObject
           [("pattern_type", JStr "card");
            ("context", JObject []);
            ("constraints",
             JList (match dict_get [("pattern_type", JStr "card"); ("context", JObject [])]
                            "constraints" with
                    | Some (JList l) => l
                    | _ => []
                    end))])])).
Proof.
  apply (X4_apply_pattern_echoes_the_request fresh_server card_pattern_request 0%Q "test_key"
           [("pattern_type", JStr "card"); ("context", JObject [])] "card" []).
  - reflexivity.
  - split; [reflexivity|]. split; [discriminate|]. vm_compute. reflexivity.
  - reflexivity.
  - reflexivity.
  - reflexivity.
  - reflexivity.
Defined.

End PatternEcho.

Section Routing.

Import Server.

Lemma resolve_cases (request : Request) :
  resolve request =
  if String.eqb "POST" (method request) then
    if String.eqb "/generate_component" (path request) then inl GenerateComponent
    else if String.eqb "/apply_pattern" (path request) then inl ApplyPattern
    else if String.eqb "/detect_bugs" (path request) then inl DetectBugs
    else inr HTTPNotFound
  else
    if (String.eqb "/generate_component" (path request) ||
        String.eqb "/apply_pattern" (path request) ||
        String.eqb "/detect_bugs" (path request))%bool
    then inr HTTPMethodNotAllowed
    else inr HTTPNotFound.
Proof.
  unfold resolve, setup_routes. cbn [List.find existsb fst snd].
  destruct (String.eqb "POST" (method request));
    destruct (String.eqb "/generate_component" (path request));
    destruct (String.eqb "/apply_pattern" (path request));
    destruct (String.eqb "/detect_bugs" (path request)); reflexivity.
Qed.

(** X5. A handler is reached exactly by [POST] to its path; every other
    request is answered by the router with 404 or 405 and leaves the
    server as it was, so it costs no admission even with a valid key. *)
Theorem X5_only_post_to_a_known_path_reaches_a_handler (request : Request) :
  (forall ep, resolve request = inl ep <->
              method request = "POST" /\ path request = path_of ep) /\
  (forall c, resolve request = inr c ->
     (c = HTTPNotFound \/ c = HTTPMethodNotAllowed) /\
     forall now s, handle request now s = (error_response c (default_reason c), s)).
Proof.
  split.
  - intros ep. rewrite resolve_cases. split.
    + destruct (String.eqb_spec "POST" (method request)) as [Hm|Hm].
      * destruct (String.eqb_spec "/generate_component" (path request)) as [H1|H1].
        { intros H. inversion H. subst ep. auto. }
        destruct (String.eqb_spec "/apply_pattern" (path request)) as [H2|H2].
        { intros H. inversion H. subst ep. auto. }
        destruct (String.eqb_spec "/detect_bugs" (path request)) as [H3|H3].
        { intros H. inversion H. subst ep. auto. }
        discriminate.
      * destruct (_ || _)%bool; discriminate.
    + intros [Hm Hp]. rewrite Hm, Hp. destruct ep; reflexivity.
  - intros c Hr. split; [exact (resolve_error request c Hr)|].
    intros now s. unfold handle. rewrite Hr. reflexivity.
Qed.

End Routing.

Section ServerInvariant.

Import Server.

Lemma handle_limiter_cases (request : Request) (now : Q) (s : Server.t) :
  rate_limiter (snd (handle request now s)) = rate_limiter s \/
  exists k, rate_limiter (snd (handle request now s)) =
            snd (RateLimiter.is_rate_limited (rate_limiter s) k now).
Proof.
  unfold handle. destruct (resolve request) as [ep|c]; [|left; reflexivity].
  rewrite handler_is_start_then_rest.
  destruct (start_cases (EventLoop.label ep) request now s) as [H|(k & Hrl & H)].
  - rewrite H. left. reflexivity.
  - right. exists k.
    destruct (except_Exception (EventLoop.label ep) (validate_request request now) s)
      as [r s1]. cbn [fst snd] in *.
    destruct H as [[-> _]|[-> _]].
    + pose proof (body_keeps_limiter ep request k s1) as Hkeep.
      destruct (except_Exception (EventLoop.label ep) (EventLoop.body_of ep request k) s1)
        as [r2 s2]. cbn [fst snd] in *. rewrite Hkeep. exact Hrl.
    + cbn [snd]. exact Hrl.
Qed.

Lemma serve_cons (request : Request) (now : Q) (rest : list (Request * Q)) (s : Server.t) :
  serve s ((request, now) :: rest) =
  (fst (handle request now s) :: fst (serve (snd (handle request now s)) rest),
   snd (serve (snd (handle request now s)) rest)).
Proof.
  cbn [serve]. destruct (handle request now s) as [resp s1]. cbn [fst snd].
  destruct (serve s1 rest) as [resps s2]. reflexivity.
Qed.

Lemma bounded_serve (reqs : list (Request * Q)) (s : Server.t) :
  bounded (rate_limiter s) ->
  bounded (rate_limiter (snd (serve s reqs))) /\
  RateLimiter.requests_per_minute (rate_limiter (snd (serve s reqs))) =
    RateLimiter.requests_per_minute (rate_limiter s).
Proof.
  revert s. induction reqs as [|[request now] rest IH]; intros s Hb.
  - simpl. auto.
  - rewrite serve_cons. cbn [snd].
    destruct (handle_limiter_cases request now s) as [E|[k E]].
    + destruct (IH (snd (handle request now s))) as [IH1 IH2]; [rewrite E; exact Hb|].
      rewrite IH2, E. auto.
    + destruct (IH (snd (handle request now s))) as [IH1 IH2].
      { rewrite E. apply bounded_is_rate_limited, Hb. }
      rewrite IH2, E, is_rate_limited_rpm. auto.
Qed.

(** X6. Whatever requests a newly created server is sent, at whatever
    times and with whatever outcomes, its limiter keeps the limit of 60
    and no key's window ever holds more than 60 timestamps. *)
Theorem X6_server_windows_never_exceed_60
    (design_system ui_framework : string) (reqs : list (Request * Q)) (k : string) :
  RateLimiter.requests_per_minute
    (rate_limiter (snd (serve (init design_system ui_framework) reqs))) = 60 /\
  Z.of_nat (length (RateLimiter.window
    (rate_limiter (snd (serve (init design_system ui_framework) reqs))) k)) <= 60.
Proof.
  destruct (bounded_serve reqs (init design_system ui_framework)) as [Hb Hr].
  { apply bounded_init. }
  split; [exact Hr|]. specialize (Hb k). rewrite Hr in Hb. simpl in Hb. lia.
Qed.

Lemma body_read_failure (ep : endpoint) (request : Request) (k : string) (s1 : Server.t)
    (e : exn) :
  json_body request = Raise e ->
  exists c r, fst (except_Exception (EventLoop.label ep) (EventLoop.body_of ep request k) s1) =
              Raise (HTTPException c r).
Proof.
  intros Hj.
  destruct e as [c r|msg|msg|cls msg];
    [exists c, r | exists HTTPBadRequest, "Invalid JSON payload"
     | exists HTTPInternalServerError, "Internal server error occurred"
     | exists HTTPInternalServerError, "Internal server error occurred"];
    destruct ep; cbn [EventLoop.body_of];
    unfold except_Exception, generate_component_body, apply_pattern_body,
           detect_bugs_body, bind, except_ValueError, lift;
    rewrite Hj; reflexivity.
Qed.

(** X8. The server answers 200 only to a request that was routed to a
    handler, carried a non-empty key, was admitted by the limiter and
    whose body could be read as JSON: never to a request without key, to
    a limited one or to one for an unknown path. *)
Theorem X8_success_requires_key_admission_and_body
    (s : Server.t) (request : Request) (now : Q) :
  status (fst (handle request now s)) = 200 ->
  (exists ep, resolve request = inl ep) /\
  (exists k, admitted_with s request now k) /\
  (exists data, json_body request = Ok data).
Proof.
  intros H200.
  destruct (resolve request) as [ep|c] eqn:Hr.
  2:{ unfold handle in H200. rewrite Hr in H200. destruct c; discriminate H200. }
  split; [eauto|].
  destruct (headers_get (headers request) "X-API-Key") as [k|] eqn:Hk.
  - destruct (String.eqb_spec k "") as [->|Hne].
    + exfalso. unfold handle in H200. rewrite Hr, handler_is_start_then_rest in H200.
      rewrite (except_Exception_http _ _ _ _ _ _
                 (validate_request_missing request now s (or_intror Hk))) in H200.
      discriminate H200.
    + destruct (fst (RateLimiter.is_rate_limited (rate_limiter s) k now)) eqn:Hl.
      * exfalso. rewrite (handle_limited s request now k ep Hr Hk Hne Hl) in H200.
        discriminate H200.
      * assert (Ha : admitted_with s request now k) by (repeat split; assumption).
        split; [eauto|].
        destruct (json_body request) as [data|e] eqn:Hj; [eauto|].
        exfalso. rewrite (handle_admitted s request now k ep Hr Ha) in H200.
        destruct (body_read_failure ep request k (after_admission s k now) e Hj)
          as (c & r & E).
        cbn [fst] in H200. rewrite E in H200. destruct c; discriminate H200.
  - exfalso. unfold handle in H200. rewrite Hr, handler_is_start_then_rest in H200.
    rewrite (except_Exception_http _ _ _ _ _ _
               (validate_request_missing request now s (or_introl Hk))) in H200.
    discriminate H200.
Qed.

Lemma X8_witness :
  (exists ep, resolve card_pattern_request = inl ep) /\
  (exists k, admitted_with fresh_server card_pattern_request 0%Q k) /\
  (exists data, json_body card_pattern_request = Ok data).
Proof.
  apply (X8_success_requires_key_admission_and_body fresh_server card_pattern_request 0%Q).
  vm_compute. reflexivity.
Defined.

End ServerInvariant.

Section UnusualBodies.

Import Server.

Variables (request : Request) (k : string) (s1 : Server.t).

Lemma detect_bugs_body_contains (data : json) :
  json_body request = Ok data ->
  contains data "code" = Ok true ->
  contains data "context" = Ok true ->
  except_Exception (EventLoop.label DetectBugs) (detect_bugs_body request k) s1 =
  (Ok (mkResponse 200 "OK" (JsonBody no_issues_envelope)),
   logged s1 INFO "[Bug] Running bug detection").
Proof.
  intros Hj Hc Hx.
  unfold except_Exception, detect_bugs_body, bind, except_ValueError, lift.
  rewrite Hj, Hc. cbn [negb]. rewrite Hx. reflexivity.
Qed.

Lemma detect_bugs_body_not_iterable (data : json) (msg : string) :
  json_body request = Ok data ->
  contains data "code" = Raise (TypeError msg) ->
  except_Exception (EventLoop.label DetectBugs) (detect_bugs_body request k) s1 =
  (Raise (HTTPException HTTPInternalServerError "Internal server error occurred"),
   logged s1 ERROR (EventLoop.label DetectBugs +:+ msg)).
Proof.
  intros Hj Hc.
  unfold except_Exception, detect_bugs_body, bind, except_ValueError, lift.
  rewrite Hj, Hc. reflexivity.
Qed.

Lemma contains_list (l : list json) (key : string) :
  In (JStr key) l -> contains (JList l) key = Ok true.
Proof.
  intros Hin. unfold contains. f_equal. apply existsb_exists.
  exists (JStr key). split; [exact Hin|]. apply String.eqb_refl.
Qed.

End UnusualBodies.

Section UnusualBodiesClaims.

Import Server.

(** X11. The field check of [/detect_bugs] is the [in] operator applied to
    whatever JSON value the body holds.  For a routed and admitted
    request: a JSON array that lists the strings "code" and "context",
    and a JSON string in which both words occur, pass the check and are
    answered 200 with no issues; a JSON null, boolean or number makes the
    check itself fail and is answered with the generic 500, not 400. *)
Theorem X11_detect_bugs_on_bodies_that_are_not_objects
    (s : Server.t) (request : Request) (now : Q) (k : string) :
  resolve request = inl DetectBugs ->
  admitted_with s request now k ->
  (forall l, json_body request = Ok (JList l) ->
     In (JStr "code") l -> In (JStr "context") l ->
     fst (handle request now s) = mkResponse 200 "OK" (JsonBody no_issues_envelope)) /\
  (forall str, json_body request = Ok (JStr str) ->
     is_substring "code" str = true -> is_substring "context" str = true ->
     fst (handle request now s) = mkResponse 200 "OK" (JsonBody no_issues_envelope)) /\
  (forall data, json_body request = Ok data ->
     (data = JNull \/ (exists b, data = JBool b) \/
      (exists z, data = JInt z) \/ (exists q, data = JFloat q)) ->
     fst (handle request now s) = internal_error_response).
Proof.
  intros Hr Ha. rewrite (handle_admitted s request now k DetectBugs Hr Ha).
  cbn [EventLoop.body_of]. split; [|split].
  - intros l Hj Hc Hx.
    rewrite (detect_bugs_body_contains request k _ (JList l) Hj
               (contains_list l "code" Hc) (contains_list l "context" Hx)).
    reflexivity.
  - intros str Hj Hc Hx.
    rewrite (detect_bugs_body_contains request k _ (JStr str) Hj); [reflexivity| |].
    + unfold contains. rewrite Hc. reflexivity.
    + unfold contains. rewrite Hx. reflexivity.
  - intros data Hj [->|[[b ->]|[[z ->]|[q ->]]]];
      erewrite (detect_bugs_body_not_iterable request k _ _ _ Hj); reflexivity.
Qed.

Lemma X11_witness :
  (forall l, json_body array_bugs_request = Ok (JList l) ->
     In (JStr "code") l -> In (JStr "context") l ->
     fst (handle array_bugs_request 0%Q fresh_server) =
       mkResponse 200 "OK" (JsonBody no_issues_envelope)) /\
  (forall str, json_body array_bugs_request = Ok (JStr str) ->
     is_substring "code" str = true -> is_substring "context" str = true ->
     fst (handle array_bugs_request 0%Q fresh_server) =
       mkResponse 200 "OK" (JsonBody no_issues_envelope)) /\
  (forall data, json_body array_bugs_request = Ok data ->
     (data = JNull \/ (exists b, data = JBool b) \/
      (exists z, data = JInt z) \/ (exists q, data = JFloat q)) ->
     fst (handle array_bugs_request 0%Q fresh_server) = internal_error_response).
Proof.
  apply (X11_detect_bugs_on_bodies_that_are_not_objects fresh_server array_bugs_request 0%Q
           "test_key").
  - reflexivity.
  - split; [reflexivity|]. split; [discriminate|]. vm_compute. reflexivity.
Defined.

(** The array body of [array_bugs_request] is indeed answered 200. *)
Example array_body_passes :
  fst (handle array_bugs_request 0%Q fresh_server) =
  mkResponse 200 "OK" (JsonBody no_issues_envelope).
Proof. vm_compute. reflexivity. Qed.

End UnusualBodiesClaims.

(** ** The tools *)

Section DictFacts.

Context {V : Type}.

Lemma dict_get_set_eq (d : list (string * V)) (key : string) (v : V) :
  dict_get (dict_set d key v) key = Some v.
Proof.
  induction d as [|[k x] d IH]; cbn [dict_set dict_get].
  - rewrite String.eqb_refl. reflexivity.
  - destruct (String.eqb k key) eqn:E; cbn [dict_get]; rewrite E; [reflexivity|exact IH].
Qed.

Lemma dict_get_set_ne (d : list (string * V)) (key key' : string) (v : V) :
  key' <> key -> dict_get (dict_set d key v) key' = dict_get d key'.
Proof.
  intros Hne. induction d as [|[k x] d IH]; cbn [dict_set dict_get].
  - destruct (String.eqb_spec key key'); [congruence|reflexivity].
  - destruct (String.eqb_spec k key) as [->|Hk]; cbn [dict_get].
    + destruct (String.eqb_spec key key'); [congruence|reflexivity].
    + destruct (String.eqb k key'); [reflexivity|exact IH].
Qed.

Lemma dict_set_bound (d : list (string * V)) (key : string) (v : V) :
  dict_get d key = Some v -> dict_set d key v = d.
Proof.
  induction d as [|[k x] d IH]; cbn [dict_set dict_get]; [discriminate|].
  destruct (String.eqb k key); intros H.
  - inversion H. reflexivity.
  - rewrite (IH H). reflexivity.
Qed.

End DictFacts.

Section BugDetectorFacts.

Import BugDetector.

Lemma suggest_fix_get (i : issue) :
  dict_get (suggest_fix i) "fix_suggestion" = Some (JStr "Placeholder fix suggestion") /\
  dict_get (suggest_fix i) "auto_fixable" = Some (JBool false) /\
  (forall key, key <> "fix_suggestion" -> key <> "auto_fixable" ->
     dict_get (suggest_fix i) key = dict_get i key).
Proof.
  unfold suggest_fix. split; [|split].
  - rewrite dict_get_set_ne by discriminate. apply dict_get_set_eq.
  - apply dict_get_set_eq.
  - intros key H1 H2. rewrite !dict_get_set_ne by assumption. reflexivity.
Qed.

Lemma suggest_fix_twice (i : issue) : suggest_fix (suggest_fix i) = suggest_fix i.
Proof.
  destruct (suggest_fix_get i) as (H1 & H2 & _).
  unfold suggest_fix at 1.
  rewrite (dict_set_bound (suggest_fix i) _ _ H1).
  apply dict_set_bound, H2.
Qed.

(** X12. [_generate_fix_suggestions] keeps the number and the order of the
    issues; every issue it returns carries the placeholder
    [fix_suggestion] and [auto_fixable = False], whatever it carried
    before, so no issue is ever auto-fixable; all its other entries are
    as they were; and running it again changes nothing. *)
Theorem X12_fix_suggestions_mark_every_issue (issues : list issue) :
  length (fst (_generate_fix_suggestions issues)) = length issues /\
  Forall (fun i =>
            dict_get i "fix_suggestion" = Some (JStr "Placeholder fix suggestion") /\
            dict_get i "auto_fixable" = Some (JBool false))
         (fst (_generate_fix_suggestions issues)) /\
  (forall n i, nth_error issues n = Some i ->
     exists i', nth_error (fst (_generate_fix_suggestions issues)) n = Some i' /\
       forall key, key <> "fix_suggestion" -> key <> "auto_fixable" ->
         dict_get i' key = dict_get i key) /\
  fst (_generate_fix_suggestions (fst (_generate_fix_suggestions issues))) =
    fst (_generate_fix_suggestions issues).
Proof.
  unfold _generate_fix_suggestions. cbn [fst].
  split; [apply length_map|]. split; [|split].
  - apply List.Forall_forall. intros i Hin. apply in_map_iff in Hin as (i0 & <- & _).
    destruct (suggest_fix_get i0) as (H1 & H2 & _). auto.
  - intros n i Hn. exists (suggest_fix i). split.
    + rewrite nth_error_map, Hn. reflexivity.
    + apply suggest_fix_get.
  - rewrite List.map_map. apply List.map_ext. intros i. apply suggest_fix_twice.
Qed.

(** An issue that claimed to be auto-fixable no longer does. *)
Example sample_issue_marked :
  fst (_generate_fix_suggestions [sample_issue]) =
  [[("id", JStr "a11y-1"); ("auto_fixable", JBool false); ("type", JStr "accessibility");
    ("fix_suggestion", JStr "Placeholder fix suggestion")]].
Proof. vm_compute. reflexivity. Qed.

(** X13. [BugDetector.detect_bugs] reports no issue, for every code and
    every context, and logs the same four records; [apply_fix] returns
    the code it was given, for every issue id. *)
Theorem X13_bug_detector_finds_nothing_and_fixes_nothing
    (self : t) (code : string) (context : list (string * json)) (issue_id : string) :
  detect_bugs self code context =
    ([], [(Info, "[BugDetector] Starting bug detection");
          (Info, "[BugDetector] Completed static analysis");
          (Info, "[BugDetector] Completed UI consistency check");
          (Info, "[BugDetector] Generated 0 fix suggestions")]) /\
  fst (apply_fix self code issue_id) = code.
Proof. split; reflexivity. Qed.

End BugDetectorFacts.

Section GeneratorFacts.

(** X14. [ComponentGenerator.generate_component] answers from the type
    of the component and the generator's settings alone (props, styles
    and accessibility do not change the result); the result holds only
    strings, so that, unlike [component.dict()], an envelope around it is
    sent by [web.json_response]; and the warning about missing
    accessibility is logged exactly when [accessibility] is [None] or the
    empty dict. *)
Theorem X14_generated_component_depends_on_type_only
    (self : ComponentGenerator.t) (component : UIComponent.t) :
  fst (ComponentGenerator.generate_component self component) =
    [("code", JStr ("// " +:+ ComponentType_value (UIComponent.type component) +:+
                    " component placeholder"));
     ("type", JStr (ComponentType_value (UIComponent.type component)));
     ("framework", JStr (ComponentGenerator.ui_framework self));
     ("design_system", JStr (ComponentGenerator.design_system self))] /\
  (forall other, UIComponent.type other = UIComponent.type component ->
     fst (ComponentGenerator.generate_component self other) =
     fst (ComponentGenerator.generate_component self component)) /\
  (forall s, Server.json_response
       (PyDict [("status", PyJson (JStr "success"));
                ("component",
                 PyJson (JObject (fst (ComponentGenerator.generate_component self component))))]) s =
     (Ok (mkResponse 200 "OK" (JsonBody (JObject
            [("status", JStr "success");
             ("component",
              JObject (fst (ComponentGenerator.generate_component self component)))]))), s)) /\
  (In (Warning, "[ComponentGenerator] No accessibility properties specified")
      (snd (ComponentGenerator.generate_component self component)) <->
   UIComponent.accessibility component = None \/
   UIComponent.accessibility component = Some []).
Proof.
  split; [reflexivity|]. split; [|split].
  - intros other Ht. unfold ComponentGenerator.generate_component,
      ComponentGenerator._generate_code. cbn [fst ComponentGenerator._apply_responsive_design].
    rewrite Ht. reflexivity.
  - intros s. reflexivity.
  - unfold ComponentGenerator.generate_component, ComponentGenerator._validate_accessibility,
      ComponentGenerator.accessibility_missing.
    cbn [snd ComponentGenerator._apply_responsive_design].
    destruct (UIComponent.accessibility component) as [[|kv rest]|]; split.
    + auto.
    + intros _. apply in_or_app. right. apply in_or_app. left. left. reflexivity.
    + intros Hin. exfalso.
      apply in_app_or in Hin as [Hin|Hin]; [|apply in_app_or in Hin as [Hin|Hin]];
        simpl in Hin; destruct Hin as [Hin|Hin]; try discriminate Hin; try contradiction.
    + intros [H|H]; discriminate H.
    + auto.
    + intros _. apply in_or_app. right. apply in_or_app. left. left. reflexivity.
Qed.

(** [PatternImplementer.apply_pattern] answers from the pattern type
    and the framework alone: the context and the constraints change
    neither the result nor the log, and any list of constraints is
    logged as validated. *)
Lemma applied_pattern_ignores_context_and_constraints
    (self : PatternImplementer.t) (pattern : DesignPattern.t) :
  fst (PatternImplementer.apply_pattern self pattern) =
    [("implementation", JStr ("// " +:+ DesignPattern.pattern_type pattern +:+
                              " pattern implementation placeholder"));
     ("pattern_type", JStr (DesignPattern.pattern_type pattern));
     ("framework", JStr (PatternImplementer.ui_framework self))] /\
  (forall context constraints,
     PatternImplementer.apply_pattern self
       (DesignPattern.mk (DesignPattern.pattern_type pattern) context constraints) =
     PatternImplementer.apply_pattern self pattern) /\
  In (Info, "[PatternImplementer] Pattern constraints validated")
     (snd (PatternImplementer.apply_pattern self pattern)).
Proof.
  split; [reflexivity|]. split; [reflexivity|].
  right. left. reflexivity.
Qed.

End GeneratorFacts.

(** ** The sliding window over any length of time *)

Section SlidingWindow.

Import RateLimiter.

Variables (start : Q) (k : string).

Lemma is_rate_limited_live_early (self : t) (now : Q) :
  (now < start)%Q ->
  live start (window (snd (is_rate_limited self k now)) k) = live start (window self k).
Proof.
  intros Hnow. rewrite is_rate_limited_window, live_app, live_prune by lra.
  destruct (fst (is_rate_limited self k now)); unfold live; simpl; [lia|].
  destruct (Qle_bool start now) eqn:E; [|simpl; lia].
  apply Qle_bool_iff in E. lra.
Qed.

Lemma admitted_within_late (nows : list Q) (rs : list bool) :
  Forall (fun now => (start + 60 <= now)%Q) nows -> admitted_within start nows rs = 0%nat.
Proof.
  intros H. revert rs. induction H as [|now nows Hnow _ IH]; intros rs; [reflexivity|].
  destruct rs as [|r rs]; [reflexivity|]. cbn [admitted_within].
  assert (E : Qgtb (start + 60) now = false) by (apply Qgtb_false; exact Hnow).
  rewrite E, andb_false_r, IH. reflexivity.
Qed.

Lemma ascending_late (now : Q) (rest : list Q) :
  ascending (now :: rest) -> (start + 60 <= now)%Q ->
  Forall (fun t => (start + 60 <= t)%Q) (now :: rest).
Proof.
  intros [Hall _] Hnow. constructor; [exact Hnow|].
  eapply List.Forall_impl; [|exact Hall]. intros t Ht. simpl in Ht. lra.
Qed.

Lemma calls_admitted_within (nows : list Q) (self : t) :
  ascending nows ->
  Z.of_nat (admitted_within start nows (fst (calls self k nows))) +
    Z.of_nat (live start (window self k)) <=
  Z.max (requests_per_minute self) (Z.of_nat (live start (window self k))).
Proof.
  revert self. induction nows as [|now rest IH]; intros self Hasc.
  - simpl. lia.
  - destruct (Qlt_le_dec now (start + 60)) as [Hhi|Hhi].
    2:{ rewrite (admitted_within_late (now :: rest) _ (ascending_late now rest Hasc Hhi)). lia. }
    rewrite calls_cons. cbn [fst admitted_within].
    specialize (IH (snd (is_rate_limited self k now)) (proj2 Hasc)).
    rewrite is_rate_limited_rpm in IH.
    assert (Eh : Qgtb (start + 60) now = true) by (apply Qgtb_true; exact Hhi).
    rewrite Eh, andb_true_r.
    destruct (Qlt_le_dec now start) as [Hlo|Hlo].
    + assert (El : Qle_bool start now = false).
      { destruct (Qle_bool start now) eqn:E; [|reflexivity].
        apply Qle_bool_iff in E. lra. }
      rewrite El. cbn [andb]. rewrite is_rate_limited_live_early in IH by exact Hlo.
      simpl. exact IH.
    + assert (El : Qle_bool start now = true) by (apply Qle_bool_iff; exact Hlo).
      rewrite El. cbn [andb].
      destruct (is_rate_limited_live start now self k (conj Hlo Hhi)) as [Hlive Hlt].
      rewrite Hlive in IH.
      destruct (fst (is_rate_limited self k now)); cbn [negb].
      * rewrite Nat.add_0_r in IH. simpl. exact IH.
      * specialize (Hlt eq_refl). lia.
Qed.

End SlidingWindow.

Section SlidingWindowClaims.

Import RateLimiter.

(** X15. The sliding-window guarantee.  While the clock does not run
    backwards, for every key, from any state of the limiter and over any
    length of time: of the calls whose clock readings fall in one and the
    same 60-second span [[start, start + 60)], at most
    [requests_per_minute] are admitted. *)
Theorem X15_at_most_the_limit_in_any_60_seconds
    (self : t) (k : string) (start : Q) (nows : list Q) :
  0 <= requests_per_minute self ->
  ascending nows ->
  Z.of_nat (admitted_within start nows (fst (calls self k nows))) <=
  requests_per_minute self.
Proof.
  intros HL Hasc. pose proof (calls_admitted_within start k nows self Hasc). lia.
Qed.

Lemma X15_witness :
  Z.of_nat (admitted_within 30 [0%Q; 40%Q; 50%Q; 65%Q; 80%Q; 95%Q]
              (fst (calls (init 2) "k" [0%Q; 40%Q; 50%Q; 65%Q; 80%Q; 95%Q]))) <=
  requests_per_minute (init 2).
Proof.
  apply (X15_at_most_the_limit_in_any_60_seconds (init 2) "k" 30%Q
           [0%Q; 40%Q; 50%Q; 65%Q; 80%Q; 95%Q]).
  - simpl. lia.
  - simpl. repeat split; repeat constructor; lra.
Defined.

(** The same run, evaluated: the calls at 0, 40 and 65 are admitted, two
    of them in the span from 30 to 90; and when the clock runs
    backwards the bound can be exceeded. *)
Example sliding_window_run :
  fst (calls (init 2) "k" [0%Q; 40%Q; 50%Q; 65%Q; 80%Q; 95%Q]) =
    [false; false; true; false; true; true] /\
  admitted_within 30 [0%Q; 40%Q; 50%Q; 65%Q; 80%Q; 95%Q]
    (fst (calls (init 2) "k" [0%Q; 40%Q; 50%Q; 65%Q; 80%Q; 95%Q])) = 2%nat /\
  admitted_within 0 [0%Q; 100%Q; 1%Q; 200%Q; 2%Q]
    (fst (calls (init 2) "k" [0%Q; 100%Q; 1%Q; 200%Q; 2%Q])) = 3%nat.
Proof. repeat split; vm_compute; reflexivity. Qed.

End SlidingWindowClaims.

Section SameInternalError.

Import Server.

(** X16. Two requests that are answered 500 receive the same response,
    whatever the requests, the times and the states of the server, and
    whatever went wrong, provided that reading their bodies did not
    itself raise an HTTP error with status 500. *)
Theorem X16_all_500_answers_are_equal
    (request1 request2 : Request) (now1 now2 : Q) (s1 s2 : Server.t) :
  (forall r, json_body request1 <> Raise (HTTPException HTTPInternalServerError r)) ->
  (forall r, json_body request2 <> Raise (HTTPException HTTPInternalServerError r)) ->
  status (fst (handle request1 now1 s1)) = 500 ->
  status (fst (handle request2 now2 s2)) = 500 ->
  fst (handle request1 now1 s1) = fst (handle request2 now2 s2).
Proof.
  intros Hb1 Hb2 H1 H2.
  rewrite (every_500_is_generic request1 now1 s1 Hb1 H1).
  rewrite (every_500_is_generic request2 now2 s2 Hb2 H2).
  reflexivity.
Qed.

Lemma X16_witness :
  fst (handle broken_read_request 0%Q fresh_server) =
  fst (handle array_component_request 7%Q strict_server).
Proof.
  apply (X16_all_500_answers_are_equal broken_read_request array_component_request
           0%Q 7%Q fresh_server strict_server).
  - intros r. discriminate.
  - intros r. discriminate.
  - vm_compute. reflexivity.
  - vm_compute. reflexivity.
Defined.

End SameInternalError.

(** ** The server and its limiter *)

Section ServerAgainstLimiter.

Import Server.

(** What a handler can come to after admission. *)
Lemma body_outcomes_all (ep : endpoint) (request : Request) (k : string) (s1 : Server.t) :
  (exists resp, fst (except_Exception (EventLoop.label ep) (EventLoop.body_of ep request k) s1)
                = Ok resp /\ status resp = 200) \/
  (exists r, fst (except_Exception (EventLoop.label ep) (EventLoop.body_of ep request k) s1)
             = Raise (HTTPException HTTPBadRequest r)) \/
  fst (except_Exception (EventLoop.label ep) (EventLoop.body_of ep request k) s1)
    = Raise (HTTPException HTTPInternalServerError "Internal server error occurred") \/
  (exists c r, json_body request = Raise (HTTPException c r) /\
     fst (except_Exception (EventLoop.label ep) (EventLoop.body_of ep request k) s1)
     = Raise (HTTPException c r)).
Proof.
  destruct (json_body request) as [data|e] eqn:Hj.
  - destruct ep; cbn [EventLoop.body_of].
    + destruct (UIComponent.new data) as [cmp|e] eqn:Hn.
      * rewrite (generate_component_body_valid request k s1 data cmp Hj Hn). auto.
      * destruct e as [c0 r0|msg|msg|cls msg].
        -- exfalso. exact (proj1 (model_constructors_raise data) c0 r0 Hn).
        -- rewrite (generate_component_body_invalid request k s1 data msg Hj Hn
                      (UIComponent_new_message data msg Hn)).
           right. right. left. reflexivity.
        -- right. right. left.
           unfold except_Exception, generate_component_body, bind, except_ValueError, lift.
           rewrite Hj, Hn. reflexivity.
        -- right. right. left.
           unfold except_Exception, generate_component_body, bind, except_ValueError, lift.
           rewrite Hj, Hn. reflexivity.
    + destruct (DesignPattern.new data) as [p|e] eqn:Hn.
      * rewrite (apply_pattern_body_valid request k s1 data p Hj Hn).
        left. eexists. split; reflexivity.
      * destruct e as [c0 r0|msg|msg|cls msg].
        -- exfalso. exact (proj2 (model_constructors_raise data) c0 r0 Hn).
        -- rewrite (apply_pattern_body_invalid request k s1 data msg Hj Hn
                      (DesignPattern_new_message data msg Hn)).
           right. right. left. reflexivity.
        -- right. right. left.
           unfold except_Exception, apply_pattern_body, bind, except_ValueError, lift.
           rewrite Hj, Hn. reflexivity.
        -- right. right. left.
           unfold except_Exception, apply_pattern_body, bind, except_ValueError, lift.
           rewrite Hj, Hn. reflexivity.
    + unfold except_Exception, detect_bugs_body, bind, except_ValueError, lift.
      rewrite Hj. unfold contains.
      destruct data as [| | | |str|items|d]; try (right; right; left; reflexivity).
      * destruct (is_substring "code" str); [|right; left; eexists; reflexivity].
        destruct (is_substring "context" str); [left; eexists; split; reflexivity|].
        right; left; eexists; reflexivity.
      * destruct (existsb _ items); [|right; left; eexists; reflexivity].
        destruct (existsb _ items); [left; eexists; split; reflexivity|].
        right; left; eexists; reflexivity.
      * destruct (dict_has d "code"); [|right; left; eexists; reflexivity].
        destruct (dict_has d "context"); [left; eexists; split; reflexivity|].
        right; left; eexists; reflexivity.
  - destruct e as [c r|msg|msg|cls msg].
    + right. right. right. exists c, r. split; [reflexivity|].
      destruct ep; cbn [EventLoop.body_of];
        unfold except_Exception, generate_component_body, apply_pattern_body,
               detect_bugs_body, bind, except_ValueError, lift;
        rewrite Hj; reflexivity.
    + right. left. exists "Invalid JSON payload".
      rewrite (body_malformed ep request k msg s1 Hj). reflexivity.
    + right. right. left.
      destruct ep; cbn [EventLoop.body_of];
        unfold except_Exception, generate_component_body, apply_pattern_body,
               detect_bugs_body, bind, except_ValueError, lift;
        rewrite Hj; reflexivity.
    + right. right. left.
      destruct ep; cbn [EventLoop.body_of];
        unfold except_Exception, generate_component_body, apply_pattern_body,
               detect_bugs_body, bind, except_ValueError, lift;
        rewrite Hj; reflexivity.
Qed.

Lemma handle_unkeyed (request : Request) (now : Q) (s : Server.t) :
  limiter_key request = None ->
  rate_limiter (snd (handle request now s)) = rate_limiter s.
Proof.
  unfold limiter_key, handle. destruct (resolve request) as [ep|c]; [|reflexivity].
  intros Hk. rewrite handler_is_start_then_rest.
  assert (Hm : missing_api_key request).
  { destruct (headers_get (headers request) "X-API-Key") as [k|] eqn:E; [|left; exact E].
    destruct (String.eqb_spec k ""); [subst; right; exact E|discriminate]. }
  rewrite (except_Exception_http _ _ _ _ _ _ (validate_request_missing request now s Hm)).
  reflexivity.
Qed.

Lemma handle_keyed (request : Request) (now : Q) (s : Server.t) (k : string) :
  limiter_key request = Some k ->
  rate_limiter (snd (handle request now s)) =
    snd (RateLimiter.is_rate_limited (rate_limiter s) k now) /\
  (body_read_not_429 request ->
   (status (fst (handle request now s)) =? 429) =
     fst (RateLimiter.is_rate_limited (rate_limiter s) k now)).
Proof.
  unfold limiter_key. destruct (resolve request) as [ep|c] eqn:Hr; [|discriminate].
  destruct (headers_get (headers request) "X-API-Key") as [k'|] eqn:Hk; [|discriminate].
  destruct (String.eqb_spec k' "") as [|Hne]; [discriminate|].
  intros E. inversion E. subst k'.
  destruct (fst (RateLimiter.is_rate_limited (rate_limiter s) k now)) eqn:Hl.
  - rewrite (handle_limited s request now k ep Hr Hk Hne Hl). split; reflexivity.
  - assert (Ha : admitted_with s request now k) by (repeat split; assumption).
    rewrite (handle_admitted s request now k ep Hr Ha). cbn [fst snd]. split.
    + rewrite (body_keeps_limiter ep request k (after_admission s k now)). reflexivity.
    + intros Hbody. apply Z.eqb_neq.
      destruct (body_outcomes_all ep request k (after_admission s k now))
        as [(resp & -> & Hs)|[(r & ->)|[->|(c & r & Hj & ->)]]]; cbn [respond].
      * rewrite Hs. discriminate.
      * discriminate.
      * discriminate.
      * destruct c; try discriminate. exfalso. exact (Hbody r Hj).
Qed.

(** X17. Serving a sequence of requests drives the limiter by exactly one
    call per request that is routed to a handler and carries a non-empty
    key, in the order of the requests and at their clock readings, and by
    nothing else; and such a request is answered 429 exactly when that
    call returned [True] (provided no body read raises the HTTP error 429
    itself). *)
Theorem X17_serving_is_a_trace_of_the_limiter (s : Server.t) (reqs : list (Request * Q)) :
  rate_limiter (snd (serve s reqs)) =
    snd (RateLimiter.trace (rate_limiter s) (limiter_calls reqs)) /\
  (Forall (fun rq => body_read_not_429 (fst rq)) reqs ->
   answers_429 reqs (fst (serve s reqs)) =
     fst (RateLimiter.trace (rate_limiter s) (limiter_calls reqs))).
Proof.
  revert s. induction reqs as [|[request now] rest IH]; intros s.
  - simpl. auto.
  - rewrite serve_cons. cbn [fst snd limiter_calls answers_429].
    destruct (IH (snd (handle request now s))) as [IH1 IH2].
    destruct (limiter_key request) as [k|] eqn:Hk.
    + destruct (handle_keyed request now s k Hk) as [Hrl Hst].
      rewrite trace_cons. cbn [fst snd]. rewrite <- Hrl. split; [exact IH1|].
      intros Hall. apply List.Forall_cons_iff in Hall as [Hb Hall].
      rewrite (Hst Hb), (IH2 Hall). reflexivity.
    + rewrite (handle_unkeyed request now s Hk) in IH1, IH2. split; [exact IH1|].
      intros Hall. apply List.Forall_cons_iff in Hall as [_ Hall]. exact (IH2 Hall).
Qed.

(** A run of five requests on the strict server: the keyless one and the
    one for an unknown path do not reach the limiter; of the other three
    the third is answered 429. *)
Example serving_five_requests :
  limiter_calls [(button_request, 0%Q); (keyless_request, 1%Q);
                 (card_pattern_request, 2%Q); (keyless_unknown_request, 3%Q);
                 (untyped_bugs_request, 4%Q)] =
    [("test_key", 0%Q); ("test_key", 2%Q); ("test_key", 4%Q)] /\
  List.map status
    (fst (serve strict_server
            [(button_request, 0%Q); (keyless_request, 1%Q);
             (card_pattern_request, 2%Q); (keyless_unknown_request, 3%Q);
             (untyped_bugs_request, 4%Q)])) = [500; 401; 200; 404; 429].
Proof. split; vm_compute; reflexivity. Qed.

End ServerAgainstLimiter.
